(** * Spending Tracker (savings-app): the form-state and derived-view logic of
    [src/App.jsx], embedded in Rocq.

    The component keeps three pieces of React state ([spendings],
    [filterCategory], [formData]); its handlers are modelled as pure
    functions on that state, one event at a time, exactly as the
    single-threaded UI event loop dispatches them.

    JavaScript values are modelled as follows.
    - A string is its sequence of UTF-16 code units ([list N]).
    - A Number is an IEEE-754 binary64 value, taken from the Standard
      Library's [SpecFloat] ([spec_float] with [prec = 53], [emax = 1024]);
      NaN, the infinities and the signed zeros are all present.
    - [parseFloat], [Number.prototype.toFixed], [String.prototype.trim],
      [split] and the global [replace] follow ECMA-262. *)

From Stdlib Require Import ZArith NArith List Bool Ascii String Lia.
From Stdlib Require Import Floats.SpecFloat.
From Stdlib Require Decimal DecimalPos DecimalN.
From Stdlib Require Import Sorted.
From stdpp Require Import gmap.
Import ListNotations.

Local Open Scope N_scope.

(* ===================================================================== *)
(** * JavaScript strings                                                  *)
(* ===================================================================== *)

Module JS.

(** A code unit, and a string as the list of its code units. *)
Definition codeunit := N.
Abbreviation jsstring := (list N).

(** Source literals are ASCII; [lit] turns one into its code units. *)
Definition lit (s : string) : jsstring :=
  List.map N_of_ascii (list_ascii_of_string s).

Definition DOT : codeunit := 46.
Definition PLUS : codeunit := 43.
Definition MINUS : codeunit := 45.
Definition ZERO : codeunit := 48.

(** The character class [0-9]. *)
Definition isDigit (c : codeunit) : bool := (48 <=? c) && (c <=? 57).

(** ECMA-262 WhiteSpace and LineTerminator code points (all in the BMP):
    TAB, VT, FF, SP, NBSP, ZWNBSP, the Zs category, LF, CR, LS, PS. *)
Definition isWhiteSpace (c : codeunit) : bool :=
  (c =? 9) || (c =? 10) || (c =? 11) || (c =? 12) || (c =? 13) || (c =? 32)
  || (c =? 160) || (c =? 5760) || ((8192 <=? c) && (c <=? 8202))
  || (c =? 8232) || (c =? 8233) || (c =? 8239) || (c =? 8287)
  || (c =? 12288) || (c =? 65279).

(** [String.prototype.trimStart], [trimEnd] and [trim]. *)
Fixpoint trimStart (s : jsstring) : jsstring :=
  match s with
  | c :: r => if isWhiteSpace c then trimStart r else s
  | [] => []
  end.

Definition trimEnd (s : jsstring) : jsstring := rev (trimStart (rev s)).

Definition trim (s : jsstring) : jsstring := trimEnd (trimStart s).

(** [value.replace(/[^0-9.]/g, '')]: the global replace walks the string
    and substitutes the empty string for every code unit the negated class
    matches, that is, every code unit that is neither a digit nor [.]. *)
Definition matches_non_numeric (c : codeunit) : bool :=
  negb (isDigit c || (c =? DOT)).

Fixpoint replace_non_numeric (s : jsstring) : jsstring :=
  match s with
  | [] => []
  | c :: r =>
      if matches_non_numeric c then replace_non_numeric r
      else c :: replace_non_numeric r
  end.

(** [s.split(sep)] for a one-code-unit separator: the pieces between
    consecutive separators; the empty string splits into one empty piece. *)
Fixpoint split (sep : codeunit) (s : jsstring) : list jsstring :=
  match s with
  | [] => [[]]
  | c :: r =>
      if c =? sep then [] :: split sep r
      else match split sep r with
           | p :: ps => (c :: p) :: ps
           | [] => [[c]]
           end
  end.

(** Strict equality [===] on strings. *)
Definition strict_eq (a b : jsstring) : bool := bool_decide (a = b).

(** ToBoolean on a string: only the empty string is falsy. *)
Definition truthy (s : jsstring) : bool :=
  match s with [] => false | _ :: _ => true end.

(** Does [p] start [s]? *)
Fixpoint starts_with (p s : jsstring) : bool :=
  match p, s with
  | [], _ => true
  | a :: p', b :: s' => (a =? b) && starts_with p' s'
  | _ :: _, [] => false
  end.

(** Longest run of decimal digits at the head of a string, and the rest. *)
Fixpoint span_digits (s : jsstring) : jsstring * jsstring :=
  match s with
  | c :: r =>
      if isDigit c
      then let '(d, t) := span_digits r in (c :: d, t)
      else ([], s)
  | [] => ([], [])
  end.

(** Mathematical value of a run of decimal digits. *)
Definition digits_value (ds : jsstring) : N :=
  fold_left (fun acc c => 10 * acc + (c - 48)) ds 0.

(** Decimal representation of a natural number, most significant first. *)
Fixpoint uint_units (u : Decimal.uint) : jsstring :=
  match u with
  | Decimal.Nil => []
  | Decimal.D0 r => 48 :: uint_units r
  | Decimal.D1 r => 49 :: uint_units r
  | Decimal.D2 r => 50 :: uint_units r
  | Decimal.D3 r => 51 :: uint_units r
  | Decimal.D4 r => 52 :: uint_units r
  | Decimal.D5 r => 53 :: uint_units r
  | Decimal.D6 r => 54 :: uint_units r
  | Decimal.D7 r => 55 :: uint_units r
  | Decimal.D8 r => 56 :: uint_units r
  | Decimal.D9 r => 57 :: uint_units r
  end.

Definition decimal (n : N) : jsstring := uint_units (N.to_uint n).

End JS.

(* ===================================================================== *)
(** * JavaScript Numbers                                                  *)
(* ===================================================================== *)

Module Num.
Import JS.

(** A Number is a binary64 float. *)
Abbreviation Number := spec_float.

Definition prec : Z := 53.
Definition emax : Z := 1024.

Definition NaN : Number := S754_nan.
Definition zero : Number := S754_zero false.

(** The operators the component uses: [+], [<=] and [>]. Every comparison
    with NaN is false. *)
Definition add (x y : Number) : Number := SFadd prec emax x y.
Definition le (x y : Number) : bool := SFleb x y.
Definition gt (x y : Number) : bool := SFltb y x.

(** The Number nearest to [n * 10^e] (ties to even), with the sign [neg];
    a zero mantissa gives the signed zero. *)
Definition number_of_decimal (neg : bool) (n : N) (e : Z) : Number :=
  match n with
  | N0 => S754_zero neg
  | Npos p =>
      if (0 <=? e)%Z
      then binary_round prec emax neg (Z.to_pos (Zpos p * 10 ^ e)) 0
      else
        let '(mz, ez, lz) :=
          SFdiv_core_binary prec emax (Zpos p) 0 (10 ^ (- e))%Z 0 in
        binary_round_aux prec emax neg mz ez lz
  end.

(** StrUnsignedDecimalLiteral, as far as a prefix of the input matches. *)
Inductive literal :=
  | LitInfinity
  | LitDecimal (digits : N) (exp10 : Z).

(** ExponentPart: [e] or [E], an optional sign, and at least one digit.
    An incomplete exponent is not part of the literal and counts as 0. *)
Definition scan_exponent (s : jsstring) : Z :=
  match s with
  | c :: r =>
      if (c =? 101) || (c =? 69) then
        match r with
        | sg :: r' =>
            if sg =? PLUS then Z.of_N (digits_value (fst (span_digits r')))
            else if sg =? MINUS
            then (- Z.of_N (digits_value (fst (span_digits r'))))%Z
            else Z.of_N (digits_value (fst (span_digits r)))
        | [] => 0%Z
        end
      else 0%Z
  | [] => 0%Z
  end.

Definition scan_unsigned (s : jsstring) : option literal :=
  if starts_with (lit "Infinity") s then Some LitInfinity
  else
    let '(ip, r1) := span_digits s in
    match r1 with
    | c :: r2 =>
        if c =? DOT then
          let '(fp, r3) := span_digits r2 in
          match ip, fp with
          | [], [] => None
          | _, _ =>
              Some (LitDecimal (digits_value (ip ++ fp))
                      (scan_exponent r3 - Z.of_nat (List.length fp)))
          end
        else
          match ip with
          | [] => None
          | _ :: _ => Some (LitDecimal (digits_value ip) (scan_exponent r1))
          end
    | [] =>
        match ip with
        | [] => None
        | _ :: _ => Some (LitDecimal (digits_value ip) 0)
        end
    end.

(** [parseFloat(string)]: skip leading white space, take the longest
    prefix that is a StrDecimalLiteral, and convert it; NaN when there is
    no such prefix. *)
Definition parseFloat (s : jsstring) : Number :=
  let t := trimStart s in
  let '(neg, body) :=
    match t with
    | c :: r =>
        if c =? MINUS then (true, r)
        else if c =? PLUS then (false, r)
        else (false, t)
    | [] => (false, [])
    end in
  match scan_unsigned body with
  | None => NaN
  | Some LitInfinity => S754_infinity neg
  | Some (LitDecimal n e) => number_of_decimal neg n e
  end.

(** ** Number.prototype.toFixed *)

(** Is [m * 2^e >= 10^21]? *)
Definition ge_1e21 (m : positive) (e : Z) : bool :=
  if (0 <=? e)%Z then (10 ^ 21 <=? Zpos m * 2 ^ e)%Z
  else (10 ^ 21 * 2 ^ (- e) <=? Zpos m)%Z.

(** The integer [n] for which [n / 10^f - m * 2^e] is closest to zero,
    the larger one when there are two. *)
Definition nearest_scaled (f : nat) (m : positive) (e : Z) : N :=
  let sc := (Zpos m * 10 ^ Z.of_nat f)%Z in
  if (0 <=? e)%Z then Z.to_N (sc * 2 ^ e)
  else Z.to_N ((2 * sc + 2 ^ (- e)) / 2 ^ (1 - e)).

(** Steps 11.b and 11.c of toFixed: the digits of [n], padded on the left
    with zeros to [f + 1] digits, with a point before the last [f]. *)
Definition fixed_digits (f : nat) (n : N) : jsstring :=
  let m := if n =? 0 then [ZERO] else decimal n in
  let k := List.length m in
  let m := if (k <=? f)%nat then repeat ZERO (f + 1 - k) ++ m else m in
  let k := List.length m in
  match f with
  | O => m
  | S _ => firstn (k - f) m ++ DOT :: skipn (k - f) m
  end.

(** *** Number::toString for values of at least 10^21

    The value is an integer [x = m * 2^e]. ECMA-262 asks for the shortest
    digit string [s] (of [k] digits) and exponent [n] with [s * 10^(n-k)]
    rounding to [x], the closest to [x] among those, the even [s] on a
    tie. Everything below is scaled by 4 so that the half-gaps between
    neighbouring floats are integers. *)

(** Four times the lower and upper bounds of the rounding interval. The
    gap below a power of two is half the gap above it. *)
Definition interval4 (m : positive) (e : Z) : Z * Z :=
  let x4 := (4 * Zpos m * 2 ^ e)%Z in
  let up := (2 * 2 ^ e)%Z in
  let down :=
    if (Zpos m =? 2 ^ (prec - 1))%Z && (3 - emax - prec <? e)%Z
    then (2 ^ e)%Z else up in
  ((x4 - down)%Z, (x4 + up)%Z).

(** Does the real [v4 / 4] round to [m * 2^e]? The bounds themselves do
    exactly when the mantissa is even. *)
Definition rounds_to (m : positive) (e : Z) (v4 : Z) : bool :=
  let '(lo, hi) := interval4 m e in
  if Z.even (Zpos m) then (lo <=? v4)%Z && (v4 <=? hi)%Z
  else (lo <? v4)%Z && (v4 <? hi)%Z.

(** The [k]-digit candidates [s * 10^t] next to [x]. *)
Definition candidates (m : positive) (e : Z) (k t : Z) : list (Z * Z) :=
  let x := (Zpos m * 2 ^ e)%Z in
  let s0 := (x / 10 ^ t)%Z in
  List.filter
    (fun st : Z * Z =>
       let s := fst st in
       (10 ^ (k - 1) <=? s)%Z && (s <? 10 ^ k)%Z
       && rounds_to m e (4 * s * 10 ^ t))
    [(s0, t); ((s0 + 1)%Z, t)].

(** Of two candidates the one closer to [x]; the even one on a tie. *)
Definition closer (x : Z) (a b : Z * Z) : Z * Z :=
  let da := Z.abs (fst a * 10 ^ snd a - x) in
  let db := Z.abs (fst b * 10 ^ snd b - x) in
  if (da <? db)%Z then a
  else if (db <? da)%Z then b
  else if Z.even (fst a) then a else b.

Definition best (x : Z) (cs : list (Z * Z)) : option (Z * Z) :=
  match cs with
  | [] => None
  | c :: r => Some (fold_left (closer x) r c)
  end.

(** Search [k = k0, k0 + 1, ...] for the first length with a candidate;
    [p] is the number of digits of [x]. With [fuel] exhausted the exact
    digits of [x] are used. *)
Fixpoint shortest (fuel : nat) (m : positive) (e : Z) (p k : Z) : Z * Z * Z :=
  let x := (Zpos m * 2 ^ e)%Z in
  match fuel with
  | O => (x, p, p)
  | S fuel' =>
      match best x (candidates m e k (p - k) ++ candidates m e k (p - k + 1)) with
      | Some (s, t) => (s, k, (t + k)%Z)
      | None => shortest fuel' m e p (k + 1)
      end
  end.

Definition toString_large (m : positive) (e : Z) : jsstring :=
  let x := (Zpos m * 2 ^ e)%Z in
  let p := Z.of_nat (List.length (decimal (Z.to_N x))) in
  let '(s, k, n) := shortest 17 m e p 1 in
  let ds := decimal (Z.to_N s) in
  let ex := lit "e+" ++ decimal (Z.to_N (n - 1)) in
  match ds with
  | [d] => d :: ex
  | d :: r => d :: DOT :: r ++ ex
  | [] => ex
  end.

(** [x.toFixed(f)] for [0 <= f <= 100] (the component passes 2). *)
Definition toFixed (f : nat) (x : Number) : jsstring :=
  match x with
  | S754_nan => lit "NaN"
  | S754_infinity false => lit "Infinity"
  | S754_infinity true => lit "-Infinity"
  | S754_zero _ => fixed_digits f 0
  | S754_finite s m e =>
      (if s then [MINUS] else [])
      ++ (if ge_1e21 m e then toString_large m e
          else fixed_digits f (nearest_scaled f m e))
  end.

End Num.

(* ===================================================================== *)
(** * The component state and its handlers                                *)
(* ===================================================================== *)

Module Spending.
(** One committed entry of the ledger ([newSpending]). *)
Record t := mk {
  id : Z;
  category : JS.jsstring;
  amount : Num.Number;
  currency : JS.jsstring;
  note : JS.jsstring;
  date : JS.jsstring
}.
End Spending.

Module FormData.
(** The draft. A JS object is open: [handleInputChange] can add a property
    under any key, kept in [extra]. *)
Record t := mk {
  category : JS.jsstring;
  amount : JS.jsstring;
  currency : JS.jsstring;
  note : JS.jsstring;
  extra : gmap JS.jsstring JS.jsstring
}.
End FormData.

Module App.
Import JS Num.

Definition CATEGORIES : list jsstring :=
  [lit "General"; lit "Personal"; lit "Auto"; lit "House"].
Definition CURRENCIES : list jsstring := [lit "MXN"; lit "USD"].

(** The three [useState] cells of the component. *)
Record State := mkState {
  spendings : list Spending.t;
  filterCategory : jsstring;
  formData : FormData.t
}.

(** The default draft, used at mount and after every commit. *)
Definition defaultFormData : FormData.t :=
  FormData.mk (lit "General") [] (lit "MXN") [] ∅.

Definition initialState : State := mkState [] (lit "All") defaultFormData.

(** [{ ...prev, [field]: value }] *)
Definition spread_with (prev : FormData.t) (field value : jsstring) : FormData.t :=
  let '(FormData.mk c a u n x) := prev in
  if strict_eq field (lit "category") then FormData.mk value a u n x
  else if strict_eq field (lit "amount") then FormData.mk c value u n x
  else if strict_eq field (lit "currency") then FormData.mk c a value n x
  else if strict_eq field (lit "note") then FormData.mk c a u value x
  else FormData.mk c a u n (<[field := value]> x).

Definition handleInputChange (field value : jsstring) (prev : FormData.t)
  : FormData.t :=
  if strict_eq field (lit "amount") then
    (* Only allow numbers and decimal point *)
    let numericValue := replace_non_numeric value in
    (* Prevent multiple decimal points *)
    let parts := split DOT numericValue in
    if (2 <? List.length parts)%nat then prev
    else spread_with prev (lit "amount") numericValue
  else if strict_eq field (lit "note") then
    (* Limit to 140 characters *)
    if (List.length value <=? 140)%nat
    then spread_with prev (lit "note") value
    else prev
  else spread_with prev field value.

Definition toggleCurrency (prev : FormData.t) : FormData.t :=
  spread_with prev (lit "currency")
    (if strict_eq (FormData.currency prev) (lit "MXN")
     then lit "USD" else lit "MXN").

(** The entry built by [addSpending]; [now] is [Date.now()] and [today] is
    [new Date().toLocaleDateString()], both supplied by the environment. *)
Definition newSpending (now : Z) (today : jsstring) (fd : FormData.t)
  : Spending.t :=
  Spending.mk now (FormData.category fd) (parseFloat (FormData.amount fd))
    (FormData.currency fd) (trim (FormData.note fd)) today.

Definition ALERT_TEXT : jsstring := lit "Please enter a valid amount".

(** [addSpending]: the alerts raised (in order) and the next state. *)
Definition addSpending (now : Z) (today : jsstring) (st : State)
  : list jsstring * State :=
  let fd := formData st in
  if negb (truthy (FormData.amount fd))
     || le (parseFloat (FormData.amount fd)) zero
  then ([ALERT_TEXT], st)
  else
    ([], mkState (newSpending now today fd :: spendings st)
           (filterCategory st)
           defaultFormData).

Definition formatAmount (amount : Number) (currency : jsstring) : jsstring :=
  lit "$" ++ toFixed 2 amount ++ lit " " ++ currency.

Definition filteredSpendings (st : State) : list Spending.t :=
  if strict_eq (filterCategory st) (lit "All") then spendings st
  else List.filter
         (fun spending => strict_eq (Spending.category spending) (filterCategory st))
         (spendings st).

Definition getTotalByCategory (spendings : list Spending.t) (category : jsstring)
  : Number :=
  let categorySpending :=
    if strict_eq category (lit "All") then spendings
    else List.filter
           (fun spending => strict_eq (Spending.category spending) category)
           spendings in
  fold_left (fun total spending => add total (Spending.amount spending))
    categorySpending zero.

(** [formData.amount && parseFloat(formData.amount) > 0], as the boolean
    the [disabled] attribute sees. *)
Definition isFormValid (fd : FormData.t) : bool :=
  truthy (FormData.amount fd) && gt (parseFloat (FormData.amount fd)) zero.

(** [disabled={!isFormValid}] on the submit button. *)
Definition submitDisabled (fd : FormData.t) : bool := negb (isFormValid fd).

(** The text inside the total display:
    [formatAmount(getTotalByCategory(filterCategory), 'MXN')]. *)
Definition totalText (spendings : list Spending.t) (category : jsstring)
  : jsstring :=
  formatAmount (getTotalByCategory spendings category) (lit "MXN").

(** ** Events

    [InputChange], [ToggleCurrency], [SetFilterCategory] and [AddSpending]
    are the handlers themselves, callable in any state. [ClickAdd] is a
    click on the submit button, which the browser delivers only while the
    button is not [disabled]. *)
Inductive Event :=
  | InputChange (field value : jsstring)
  | ToggleCurrency
  | SetFilterCategory (category : jsstring)
  | AddSpending (now : Z) (today : jsstring)
  | ClickAdd (now : Z) (today : jsstring).

Definition with_formData (st : State) (fd : FormData.t) : State :=
  mkState (spendings st) (filterCategory st) fd.

Definition step (ev : Event) (st : State) : list jsstring * State :=
  match ev with
  | InputChange field value =>
      ([], with_formData st (handleInputChange field value (formData st)))
  | ToggleCurrency => ([], with_formData st (toggleCurrency (formData st)))
  | SetFilterCategory c => ([], mkState (spendings st) c (formData st))
  | AddSpending now today => addSpending now today st
  | ClickAdd now today =>
      if submitDisabled (formData st) then ([], st)
      else addSpending now today st
  end.

(** Run a sequence of events, collecting the alerts. *)
Fixpoint run (evs : list Event) (st : State) : list jsstring * State :=
  match evs with
  | [] => ([], st)
  | ev :: rest =>
      let '(a1, st1) := step ev st in
      let '(a2, st2) := run rest st1 in
      (a1 ++ a2, st2)
  end.

Definition final (evs : list Event) : State := snd (run evs initialState).

(** Typing into the amount field. The input is controlled
    ([value={formData.amount}]), so after each key [onChange] hands the
    handler the current field value followed by the key. *)
Definition typeKeys (text : jsstring) (fd : FormData.t) : FormData.t :=
  fold_left
    (fun d c => handleInputChange (lit "amount") (FormData.amount d ++ [c]) d)
    text fd.

(** Typing into the note field of the controlled textarea: after each key
    the handler receives the current note followed by what the key
    inserts, one code unit for a character of the Basic Multilingual
    Plane, the two code units of the surrogate pair for any other. *)
Definition typeNoteKeys (keys : list jsstring) (fd : FormData.t) : FormData.t :=
  fold_left
    (fun d key => handleInputChange (lit "note") (FormData.note d ++ key) d)
    keys fd.


(** ** What the component renders from its state *)

Definition QUOTE : codeunit := 34.

(** The counter under the note: [{formData.note.length}/140], with the
    class [warning] once the length passes 130. *)
Definition charCount (fd : FormData.t) : jsstring :=
  decimal (N.of_nat (List.length (FormData.note fd))) ++ lit "/140".

Definition charCountWarning (fd : FormData.t) : bool :=
  (130 <? List.length (FormData.note fd))%nat.

(** The filter section, with the total, is rendered only while
    [spendings.length > 0]. *)
Definition totalDisplay (st : State) : option jsstring :=
  if (0 <? List.length (spendings st))%nat
  then Some (lit "Total (" ++ filterCategory st ++ lit "): "
             ++ totalText (spendings st) (filterCategory st))
  else None.

(** One [spending-item]: its React key, the category, the formatted
    amount, and the quoted note when the note is not empty. *)
Record Row := mkRow {
  rowKey : Z;
  rowCategory : jsstring;
  rowAmount : jsstring;
  rowNote : option jsstring
}.

Definition renderRow (spending : Spending.t) : Row :=
  mkRow (Spending.id spending) (Spending.category spending)
    (formatAmount (Spending.amount spending) (Spending.currency spending))
    (if truthy (Spending.note spending)
     then Some (QUOTE :: Spending.note spending ++ [QUOTE])
     else None).

(** The list area: an empty-state message, or the rows. *)
Inductive ListView :=
  | EmptyState (message : jsstring)
  | Items (rows : list Row).

Definition NO_SPENDINGS_YET : jsstring :=
  lit "No spendings yet. Add your first spending above!".

Definition noSpendingsFound (category : jsstring) : jsstring :=
  lit "No spendings found for " ++ QUOTE :: category ++ QUOTE :: lit " category.".

Definition listView (st : State) : ListView :=
  if (List.length (filteredSpendings st) =? 0)%nat then
    EmptyState
      (if (List.length (spendings st) =? 0)%nat then NO_SPENDINGS_YET
       else noSpendingsFound (filterCategory st))
  else Items (List.map renderRow (filteredSpendings st)).

End App.

(* ===================================================================== *)
(** * Vocabulary of the specification                                     *)
(* ===================================================================== *)

Module Spec.
Import JS Num App.

(** Number of [.] code units in a string. *)
Definition count_dots (s : jsstring) : nat := count_occ N.eq_dec s DOT.

(** A code unit the amount field may hold: a decimal digit or [.]. *)
Definition numeric_unit (c : codeunit) : bool := isDigit c || (c =? DOT).

(** Only digits, and at most one [.]. *)
Definition clean_amount (s : jsstring) : Prop :=
  Forall (fun c => numeric_unit c = true) s /\ (count_dots s <= 1)%nat.

(** A Number that is strictly above zero: a positive finite value or
    [+Infinity]. NaN and both zeros are not. *)
Definition positive_number (x : Number) : Prop :=
  match x with
  | S754_finite false _ _ | S754_infinity false => True
  | _ => False
  end.

(** The updates the Form State Manager rejects: an amount whose stripped
    text holds a second [.], or a note longer than 140 code units. *)
Definition rejected (field value : jsstring) : bool :=
  (strict_eq field (lit "amount")
   && (2 <=? count_dots (replace_non_numeric value))%nat)
  || (strict_eq field (lit "note") && (140 <? List.length value)%nat).

(** Submits in a sequence of events, and the entries they hand over, in
    submission order. *)
Definition is_submit (ev : Event) : bool :=
  match ev with
  | AddSpending _ _ | ClickAdd _ _ => true
  | _ => false
  end.

Definition submits (evs : list Event) : nat :=
  List.length (List.filter is_submit evs).

(** Every submit of the run finds a draft whose amount is non-empty and
    parses to a value above zero. *)
Fixpoint valid_submits (evs : list Event) (st : State) : Prop :=
  match evs with
  | [] => True
  | ev :: rest =>
      (is_submit ev = true -> isFormValid (formData st) = true)
      /\ valid_submits rest (snd (step ev st))
  end.

Fixpoint submitted (evs : list Event) (st : State) : list Spending.t :=
  match evs with
  | [] => []
  | ev :: rest =>
      match ev with
      | AddSpending now today | ClickAdd now today =>
          [newSpending now today (formData st)]
      | _ => []
      end ++ submitted rest (snd (step ev st))
  end.

(** No [AddSpending] call from outside the UI: every commit goes through
    the submit button. *)
Definition ui_only (evs : list Event) : Prop :=
  Forall (fun ev => match ev with AddSpending _ _ => False | _ => True end) evs.

(** The entries a category total ranges over: those whose category equals
    [c], all of them when [c] is ['All']. *)
Definition in_category (c : jsstring) (e : Spending.t) : Prop :=
  c = lit "All" \/ Spending.category e = c.

#[global] Instance in_category_dec (c : jsstring) (e : Spending.t) :
  Decision (in_category c e).
Proof. unfold in_category. apply _. Defined.

(** The sum of the amounts, accumulated left to right from 0 in Number
    arithmetic. *)
Definition sum_amounts (l : list Spending.t) : Number :=
  fold_left add (List.map Spending.amount l) zero.

(** A fixed-2-decimal string: an optional minus sign, one or more digits,
    a point, exactly two digits. *)
Definition fixed2 (s : jsstring) : bool :=
  let body :=
    match s with
    | c :: r => if c =? MINUS then r else s
    | [] => []
    end in
  let '(ip, rest) := span_digits body in
  match ip, rest with
  | _ :: _, [d; f1; f2] => (d =? DOT) && isDigit f1 && isDigit f2
  | _, _ => false
  end.

(** [n] is the integer nearest to [100 * m * 2^e], the larger one on a
    tie: [n - 1/2 <= 100 * m * 2^e < n + 1/2]. *)
Definition is_nearest_hundredth (m : positive) (e : Z) (n : N) : Prop :=
  if (0 <=? e)%Z then Z.of_N n = (100 * Zpos m * 2 ^ e)%Z
  else ((2 * Z.of_N n - 1) * 2 ^ (- e) <= 200 * Zpos m
        /\ 200 * Zpos m < (2 * Z.of_N n + 1) * 2 ^ (- e))%Z.

(** The string [s] writes [n] hundredths in fixed notation: a minus sign
    when [neg], the digits of [n] (padded to three), and a point before
    the last two. *)
Definition renders_hundredths (s : jsstring) (neg : bool) (n : N) : Prop :=
  exists ip f1 f2,
    s = (if neg then [MINUS] else []) ++ ip ++ [DOT; f1; f2]
    /\ ip <> []
    /\ Forall (fun c => isDigit c = true) (ip ++ [f1; f2])
    /\ digits_value (ip ++ [f1; f2]) = n.

(** The exact value of a finite Number, counted in units of 2^-1074 (the
    smallest positive binary64 value, of which every finite one is a
    multiple). *)
Definition units (x : Number) : option Z :=
  match x with
  | S754_zero _ => Some 0%Z
  | S754_finite s m e =>
      Some ((if s then -1 else 1) * Zpos m * 2 ^ (e + 1074))%Z
  | _ => None
  end.

(** Totals for which [toFixed] takes its fixed-notation branch: finite and
    of magnitude below 10^21. *)
Definition fixed_range (x : Number) : bool :=
  match x with
  | S754_zero _ => true
  | S754_finite _ m e => negb (ge_1e21 m e)
  | _ => false
  end.

(** The draft's note and every committed note stay within 140 code
    units. *)
Definition notes_bounded (st : State) : Prop :=
  (List.length (FormData.note (formData st)) <= 140)%nat
  /\ Forall (fun e => (List.length (Spending.note e) <= 140)%nat) (spendings st).

(** Two ledgers that differ at most in the currencies of their entries. *)
Definition same_but_currency (l1 l2 : list Spending.t) : Prop :=
  List.map (fun e => (Spending.category e, Spending.amount e)) l1 =
  List.map (fun e => (Spending.category e, Spending.amount e)) l2.

(** ** Vocabulary for the properties beyond the specification *)

(** The events the rendered page can produce: the category selector
    offers [CATEGORIES], the filter selector ['All'] and [CATEGORIES];
    the amount and note fields send any text; commits come from the
    submit button. *)
Definition ui_event (ev : Event) : Prop :=
  match ev with
  | InputChange field value =>
      (field = lit "category" /\ In value CATEGORIES)
      \/ field = lit "amount" \/ field = lit "note"
  | ToggleCurrency => True
  | SetFilterCategory c => c = lit "All" \/ In c CATEGORIES
  | AddSpending _ _ => False
  | ClickAdd _ _ => True
  end.

(** An entry as the data model describes it. *)
Definition wellformed_entry (e : Spending.t) : Prop :=
  In (Spending.category e) CATEGORIES
  /\ positive_number (Spending.amount e)
  /\ In (Spending.currency e) CURRENCIES
  /\ (List.length (Spending.note e) <= 140)%nat.

Definition wellformed_state (st : State) : Prop :=
  In (FormData.category (formData st)) CATEGORIES
  /\ In (FormData.currency (formData st)) CURRENCIES
  /\ clean_amount (FormData.amount (formData st))
  /\ (List.length (FormData.note (formData st)) <= 140)%nat
  /\ FormData.extra (formData st) = ∅
  /\ (filterCategory st = lit "All" \/ In (filterCategory st) CATEGORIES)
  /\ Forall wellformed_entry (spendings st).

(** The amount field after typing [text] key by key: the numeric code
    units of [text], without the points that follow the first one.
    [seen] tells whether a point is already in the field. *)
Fixpoint keep_first_dot (seen : bool) (text : jsstring) : jsstring :=
  match text with
  | [] => []
  | c :: r =>
      if c =? DOT then
        if seen then keep_first_dot true r else c :: keep_first_dot true r
      else if isDigit c then c :: keep_first_dot seen r
      else keep_first_dot seen r
  end.

Definition has_dot (s : jsstring) : bool := (0 <? count_dots s)%nat.

(** The clock readings ([Date.now()]) handed to the submits of a run. *)
Definition submit_times (evs : list Event) : list Z :=
  flat_map
    (fun ev =>
       match ev with
       | AddSpending now _ | ClickAdd now _ => [now]
       | _ => []
       end)
    evs.

(** The last filter chosen in a run, [start] when none was. *)
Definition last_filter (start : jsstring) (evs : list Event) : jsstring :=
  fold_left
    (fun f ev => match ev with SetFilterCategory c => c | _ => f end)
    evs start.

(** The Number that holds the whole number [n] exactly, for
    [0 < n < 2^53]: the mantissa is [n] shifted to 53 bits. *)
Definition whole (n : positive) : Number :=
  let '(m, e) := shl_align n 0 (fexp prec emax (Zpos (digits2_pos n))) in
  S754_finite false m e.

(** A ledger of whole-number amounts, with the whole numbers. *)
Definition whole_amounts (ledger : list Spending.t) (ns : list positive) : Prop :=
  List.map Spending.amount ledger = List.map whole ns.

Definition total_of (ns : list positive) : Z :=
  fold_right (fun n acc => (Zpos n + acc)%Z) 0%Z ns.

End Spec.

(* ===================================================================== *)
(** * Facts about the string primitives                                   *)
(* ===================================================================== *)

Section StringFacts.
Import JS Spec.

Lemma replace_non_numeric_filter (v : jsstring) :
  replace_non_numeric v = List.filter numeric_unit v.
Proof.
  induction v as [|c r IH]; simpl; [reflexivity|].
  unfold matches_non_numeric, numeric_unit.
  destruct (isDigit c || (c =? DOT)); simpl; now rewrite IH.
Qed.

Lemma replace_non_numeric_units (v : jsstring) :
  Forall (fun c => numeric_unit c = true) (replace_non_numeric v).
Proof.
  rewrite replace_non_numeric_filter, List.Forall_forall.
  intros c Hc. now apply filter_In in Hc.
Qed.

Lemma split_nonempty (sep : codeunit) (s : jsstring) : split sep s <> [].
Proof.
  induction s as [|c r IH]; simpl; [discriminate|].
  destruct (c =? sep); [discriminate|].
  destruct (split sep r); [contradiction|discriminate].
Qed.

(** [split] yields one piece more than there are separators. *)
Lemma split_length (sep : codeunit) (s : jsstring) :
  List.length (split sep s) = S (count_occ N.eq_dec s sep).
Proof.
  induction s as [|c r IH]; simpl; [reflexivity|].
  destruct (N.eqb_spec c sep) as [->|Hne].
  - destruct (N.eq_dec sep sep); [|contradiction]. simpl. now rewrite IH.
  - destruct (N.eq_dec c sep); [contradiction|].
    pose proof (split_nonempty sep r) as Hs.
    destruct (split sep r) as [|p ps]; [contradiction|]. exact IH.
Qed.

Lemma trimStart_length (s : jsstring) :
  (List.length (trimStart s) <= List.length s)%nat.
Proof.
  induction s as [|c r IH]; simpl; [lia|].
  destruct (isWhiteSpace c); simpl; lia.
Qed.

Lemma trim_length (s : jsstring) : (List.length (trim s) <= List.length s)%nat.
Proof.
  unfold trim, trimEnd. rewrite length_rev.
  etransitivity; [apply trimStart_length|].
  rewrite length_rev. apply trimStart_length.
Qed.

Lemma strict_eq_true (a b : jsstring) : strict_eq a b = true <-> a = b.
Proof. unfold strict_eq. apply bool_decide_eq_true. Qed.

Lemma strict_eq_false (a b : jsstring) : strict_eq a b = false <-> a <> b.
Proof. unfold strict_eq. apply bool_decide_eq_false. Qed.

Lemma strict_eq_refl (a : jsstring) : strict_eq a a = true.
Proof. now apply strict_eq_true. Qed.

Lemma truthy_true (s : jsstring) : truthy s = true <-> s <> [].
Proof. destruct s; simpl; split; intros; congruence. Qed.

End StringFacts.

(* ===================================================================== *)
(** * Facts about Number comparison                                       *)
(* ===================================================================== *)

Section NumberFacts.
Import Num Spec.

Lemma gt_zero_iff (x : Number) : gt x zero = true <-> positive_number x.
Proof.
  unfold gt, zero, SFltb, positive_number.
  destruct x as [s|s| |s m e]; simpl; try destruct s; simpl;
    split; intros H; try exact I; try discriminate; try contradiction;
    reflexivity.
Qed.

(** [x <= 0] is false for positive Numbers and for NaN, and only then. *)
Lemma le_zero_false_iff (x : Number) :
  le x zero = false <-> positive_number x \/ x = NaN.
Proof.
  unfold le, zero, SFleb, positive_number, NaN.
  destruct x as [s|s| |s m e]; simpl; try destruct s; simpl;
    split; intros H; try discriminate; try reflexivity; auto;
    destruct H as [H|H]; try contradiction; discriminate.
Qed.

Lemma gt_zero_not_le (x : Number) : gt x zero = true -> le x zero = false.
Proof. intros H. apply le_zero_false_iff. left. now apply gt_zero_iff. Qed.

Lemma le_zero_not_gt (x : Number) : le x zero = true -> gt x zero = false.
Proof.
  intros H. destruct (gt x zero) eqn:E; [|reflexivity].
  apply gt_zero_not_le in E. congruence.
Qed.

End NumberFacts.

(* ===================================================================== *)
(** * parseFloat on the strings the amount field can hold                 *)
(* ===================================================================== *)

Section ParseFacts.
Import JS Num Spec.

(** Rounding never turns a non-negative mantissa into NaN. *)
Lemma shr_1_nonneg (mrs : shr_record) :
  (0 <= shr_m mrs)%Z -> (0 <= shr_m (shr_1 mrs))%Z.
Proof.
  destruct mrs as [m r t]. simpl.
  destruct m as [|[p|p|]|p]; simpl; lia.
Qed.

Lemma iter_shr_1_nonneg (p : positive) (mrs : shr_record) :
  (0 <= shr_m mrs)%Z -> (0 <= shr_m (SpecFloat.iter_pos shr_1 p mrs))%Z.
Proof.
  revert mrs. induction p as [p IH|p IH|]; intros mrs H; simpl.
  - apply IH, IH, shr_1_nonneg, H.
  - apply IH, IH, H.
  - apply shr_1_nonneg, H.
Qed.

Lemma shr_fexp_nonneg (m e : Z) (l : location) :
  (0 <= m)%Z -> (0 <= shr_m (fst (shr_fexp prec emax m e l)))%Z.
Proof.
  intros H. unfold shr_fexp, shr.
  assert (H0 : (0 <= shr_m (shr_record_of_loc m l))%Z)
    by (destruct l as [|[| |]]; exact H).
  destruct (fexp prec emax (Zdigits2 m + e) - e)%Z; simpl; auto.
  now apply iter_shr_1_nonneg.
Qed.

Lemma round_nearest_even_nonneg (m : Z) (l : location) :
  (0 <= m)%Z -> (0 <= round_nearest_even m l)%Z.
Proof.
  intros H. destruct l as [|[| |]]; simpl; try lia.
  destruct (Z.even m); lia.
Qed.

Lemma binary_round_aux_not_nan (sx : bool) (m e : Z) (l : location) :
  (0 <= m)%Z -> binary_round_aux prec emax sx m e l <> NaN.
Proof.
  intros H. unfold binary_round_aux.
  pose proof (shr_fexp_nonneg m e l H) as H1.
  destruct (shr_fexp prec emax m e l) as [mrs' e']. simpl in H1.
  pose proof (round_nearest_even_nonneg (shr_m mrs') (loc_of_shr_record mrs') H1) as H2.
  pose proof (shr_fexp_nonneg _ e' loc_Exact H2) as H3.
  destruct (shr_fexp prec emax _ e' loc_Exact) as [mrs'' e'']. simpl in H3.
  destruct (shr_m mrs'') as [|q|q]; [discriminate| |lia].
  destruct (e'' <=? emax - prec)%Z; discriminate.
Qed.

Lemma number_of_decimal_not_nan (neg : bool) (n : N) (e : Z) :
  number_of_decimal neg n e <> NaN.
Proof.
  unfold number_of_decimal. destruct n as [|p]; [discriminate|].
  destruct (Z.leb_spec 0 e) as [He|He].
  - unfold binary_round.
    destruct (shl_align _ _ _) as [mz ez]. now apply binary_round_aux_not_nan.
  - unfold SFdiv_core_binary.
    set (m' := match (0 - 0 - _)%Z with Z0 => _ | Zpos _ => _ | Zneg _ => _ end).
    assert (Hm' : (0 <= m')%Z).
    { unfold m'. destruct (0 - 0 - _)%Z; [lia| |lia].
      apply Z.shiftl_nonneg. lia. }
    assert (Hd : (0 < 10 ^ (- e))%Z) by (apply Z.pow_pos_nonneg; lia).
    pose proof (Z.div_pos m' (10 ^ (- e)) Hm' Hd) as Hq.
    unfold Z.div in Hq.
    destruct (Z.div_eucl m' (10 ^ (- e))) as [q r]. simpl in Hq.
    now apply binary_round_aux_not_nan.
Qed.

(** What [span_digits] returns: the digits in front, and a rest that does
    not start with a digit. *)
Lemma span_digits_spec (s : jsstring) :
  s = fst (span_digits s) ++ snd (span_digits s)
  /\ Forall (fun c => isDigit c = true) (fst (span_digits s))
  /\ match snd (span_digits s) with
     | c :: _ => isDigit c = false
     | [] => True
     end.
Proof.
  induction s as [|c r (IH1 & IH2 & IH3)]; simpl; [now repeat split|].
  destruct (isDigit c) eqn:E.
  - destruct (span_digits r) as [d t]. simpl in *.
    split; [now rewrite <- IH1|]. split; [now constructor|exact IH3].
  - simpl. split; [reflexivity|]. split; [constructor|exact E].
Qed.

Lemma span_digits_all (s : jsstring) :
  Forall (fun c => isDigit c = true) s -> span_digits s = (s, []).
Proof.
  induction 1 as [|c r Hc _ IH]; simpl; [reflexivity|].
  now rewrite Hc, IH.
Qed.

Lemma numeric_unit_cases (c : codeunit) :
  numeric_unit c = true ->
  c = DOT \/ (isDigit c = true /\ 48 <= c <= 57).
Proof.
  unfold numeric_unit, isDigit. intros H.
  apply orb_true_iff in H as [H|H].
  - right. split; [exact H|]. apply andb_true_iff in H as [H1 H2].
    apply N.leb_le in H1. apply N.leb_le in H2. lia.
  - left. now apply N.eqb_eq.
Qed.

(** White space, signs and the letter of [Infinity] are not numeric. *)
Lemma numeric_unit_plain (c : codeunit) :
  numeric_unit c = true ->
  isWhiteSpace c = false /\ (c =? MINUS) = false /\ (c =? PLUS) = false
  /\ (73 =? c) = false.
Proof.
  intros H. apply numeric_unit_cases in H as [->|[_ H]]; [now repeat split|].
  assert (Hc : c = 48 \/ c = 49 \/ c = 50 \/ c = 51 \/ c = 52 \/ c = 53
               \/ c = 54 \/ c = 55 \/ c = 56 \/ c = 57) by lia.
  repeat destruct Hc as [->|Hc]; try subst c; now repeat split.
Qed.

(** A string of digits with no point in it is all digits. *)
Lemma no_dot_all_digits (s : jsstring) :
  Forall (fun c => numeric_unit c = true) s ->
  count_dots s = 0%nat ->
  Forall (fun c => isDigit c = true) s.
Proof.
  unfold count_dots. induction 1 as [|c r Hc _ IH]; simpl; intros H0; [constructor|].
  destruct (N.eq_dec c DOT) as [->|Hne]; [discriminate|].
  constructor; [|now apply IH].
  apply numeric_unit_cases in Hc as [->|[Hc _]]; [contradiction|exact Hc].
Qed.

Lemma count_dots_app (a b : jsstring) :
  count_dots (a ++ b) = (count_dots a + count_dots b)%nat.
Proof. apply count_occ_app. Qed.

(** On a clean amount the scanner finds no literal exactly in the empty
    string and in the lone point. *)
Lemma clean_scan_unsigned (a : jsstring) :
  clean_amount a ->
  (scan_unsigned a = None <-> a = [] \/ a = [DOT])
  /\ scan_unsigned a <> Some LitInfinity.
Proof.
  intros [Hu Hd]. unfold scan_unsigned.
  assert (Hinf : starts_with (lit "Infinity") a = false).
  { destruct a as [|c r]; [reflexivity|]. inversion Hu as [|? ? Hc _]; subst.
    apply numeric_unit_plain in Hc as (_ & _ & _ & Hc).
    change (starts_with (lit "Infinity") (c :: r))
      with ((73 =? c) && starts_with (lit "nfinity") r).
    now rewrite Hc. }
  rewrite Hinf.
  destruct (span_digits_spec a) as (Ha & Hip & Hr1).
  destruct (span_digits a) as [ip r1]. simpl in Ha, Hip, Hr1.
  destruct r1 as [|c r2].
  - rewrite app_nil_r in Ha. subst ip.
    destruct a as [|d a']; (split; [|discriminate]); [split; auto|].
    split; [discriminate|]. intros [H|H]; [discriminate|].
    injection H as -> ->. inversion Hip as [|? ? Hd0 _]. discriminate Hd0.
  - assert (Hc : c = DOT).
    { rewrite Ha in Hu. apply Forall_app in Hu as [_ Hu].
      inversion Hu as [|? ? Hcu _]; subst.
      apply numeric_unit_cases in Hcu as [Hcu|[Hcu _]]; [exact Hcu|congruence]. }
    subst c. rewrite N.eqb_refl.
    assert (Hr2 : Forall (fun c => isDigit c = true) r2).
    { apply no_dot_all_digits.
      - rewrite Ha in Hu. apply Forall_app in Hu as [_ Hu].
        now inversion Hu.
      - rewrite Ha, count_dots_app in Hd. unfold count_dots in Hd |- *.
        simpl in Hd. destruct (N.eq_dec DOT DOT); [lia|contradiction]. }
    rewrite (span_digits_all r2 Hr2).
    destruct ip as [|d ip'], r2 as [|f r2']; simpl in Ha; subst a;
      (split; [|discriminate]).
    + split; auto.
    + split; [discriminate|]. intros [H|H]; discriminate H.
    + split; [discriminate|]. intros [H|H]; [discriminate H|].
      injection H as -> H. destruct ip'; discriminate H.
    + split; [discriminate|]. intros [H|H]; [discriminate H|].
      injection H as -> H. destruct ip'; discriminate H.
Qed.

(** C1 and C2 rest on this: among the values the amount field can hold,
    [parseFloat] gives NaN for the empty string and the lone point, and
    for nothing else. *)
Lemma clean_amount_unparsable (a : jsstring) :
  clean_amount a ->
  (parseFloat a = NaN <-> a = [] \/ a = [DOT]).
Proof.
  intros Hc. destruct (clean_scan_unsigned a Hc) as [Hnone Hinf].
  unfold parseFloat.
  assert (Ht : trimStart a = a).
  { destruct a as [|c r]; [reflexivity|]. destruct Hc as [Hu _].
    inversion Hu as [|? ? Hcu _]; subst.
    apply numeric_unit_plain in Hcu as (Hw & _). simpl. now rewrite Hw. }
  rewrite Ht.
  assert (Hs : (let '(neg, body) :=
                  match a with
                  | c :: r =>
                      if c =? MINUS then (true, r)
                      else if c =? PLUS then (false, r) else (false, a)
                  | [] => (false, [])
                  end in
                match scan_unsigned body with
                | None => NaN
                | Some LitInfinity => S754_infinity neg
                | Some (LitDecimal n e) => number_of_decimal neg n e
                end) =
               match scan_unsigned a with
               | None => NaN
               | Some LitInfinity => S754_infinity false
               | Some (LitDecimal n e) => number_of_decimal false n e
               end).
  { destruct a as [|c r]; [reflexivity|]. destruct Hc as [Hu _].
    inversion Hu as [|? ? Hcu _]; subst.
    apply numeric_unit_plain in Hcu as (_ & Hm & Hp & _).
    now rewrite Hm, Hp. }
  rewrite Hs. destruct (scan_unsigned a) as [[|n e]|].
  - contradiction.
  - split; [intros H; now apply number_of_decimal_not_nan in H|].
    intros H. apply Hnone in H. discriminate.
  - split; [intros _; now apply Hnone|reflexivity].
Qed.

End ParseFacts.

(* ===================================================================== *)
(** * Facts about the handlers                                            *)
(* ===================================================================== *)

Section HandlerFacts.
Import JS Num App Spec.

(** ** handleInputChange, branch by branch *)

Lemma spread_with_amount (fd : FormData.t) (v : jsstring) :
  spread_with fd (lit "amount") v =
  FormData.mk (FormData.category fd) v (FormData.currency fd)
    (FormData.note fd) (FormData.extra fd).
Proof. now destruct fd. Qed.

Lemma spread_with_note (fd : FormData.t) (v : jsstring) :
  spread_with fd (lit "note") v =
  FormData.mk (FormData.category fd) (FormData.amount fd)
    (FormData.currency fd) v (FormData.extra fd).
Proof. now destruct fd. Qed.

Lemma spread_with_category (fd : FormData.t) (v : jsstring) :
  spread_with fd (lit "category") v =
  FormData.mk v (FormData.amount fd) (FormData.currency fd)
    (FormData.note fd) (FormData.extra fd).
Proof. now destruct fd. Qed.

Lemma spread_with_currency (fd : FormData.t) (v : jsstring) :
  spread_with fd (lit "currency") v =
  FormData.mk (FormData.category fd) (FormData.amount fd) v
    (FormData.note fd) (FormData.extra fd).
Proof. now destruct fd. Qed.

(** An amount update is dropped exactly when the stripped text holds two
    or more points. *)
Lemma handleInputChange_amount (v : jsstring) (fd : FormData.t) :
  handleInputChange (lit "amount") v fd =
  if (2 <=? count_dots (replace_non_numeric v))%nat then fd
  else FormData.mk (FormData.category fd) (replace_non_numeric v)
         (FormData.currency fd) (FormData.note fd) (FormData.extra fd).
Proof.
  unfold handleInputChange. rewrite strict_eq_refl, split_length.
  fold (count_dots (replace_non_numeric v)).
  rewrite spread_with_amount.
  destruct (count_dots (replace_non_numeric v)) as [|[|k]]; reflexivity.
Qed.

Lemma handleInputChange_note (v : jsstring) (fd : FormData.t) :
  handleInputChange (lit "note") v fd =
  if (List.length v <=? 140)%nat
  then FormData.mk (FormData.category fd) (FormData.amount fd)
         (FormData.currency fd) v (FormData.extra fd)
  else fd.
Proof.
  unfold handleInputChange.
  replace (strict_eq (lit "note") (lit "amount")) with false by reflexivity.
  rewrite strict_eq_refl, spread_with_note. reflexivity.
Qed.

Lemma handleInputChange_category (v : jsstring) (fd : FormData.t) :
  handleInputChange (lit "category") v fd =
  FormData.mk v (FormData.amount fd) (FormData.currency fd)
    (FormData.note fd) (FormData.extra fd).
Proof.
  unfold handleInputChange.
  replace (strict_eq (lit "category") (lit "amount")) with false by reflexivity.
  replace (strict_eq (lit "category") (lit "note")) with false by reflexivity.
  apply spread_with_category.
Qed.

(** A field other than [amount] and [note] never touches those two. *)
Lemma handleInputChange_other (field v : jsstring) (fd : FormData.t) :
  field <> lit "amount" -> field <> lit "note" ->
  FormData.amount (handleInputChange field v fd) = FormData.amount fd
  /\ FormData.note (handleInputChange field v fd) = FormData.note fd.
Proof.
  intros Ha Hn. unfold handleInputChange.
  apply strict_eq_false in Ha. apply strict_eq_false in Hn.
  rewrite Ha, Hn. destruct fd as [c a u n x]. unfold spread_with.
  rewrite Ha, Hn.
  destruct (strict_eq field (lit "category")); [now split|].
  destruct (strict_eq field (lit "currency")); now split.
Qed.

Lemma toggleCurrency_frame (fd : FormData.t) :
  FormData.amount (toggleCurrency fd) = FormData.amount fd
  /\ FormData.note (toggleCurrency fd) = FormData.note fd
  /\ FormData.category (toggleCurrency fd) = FormData.category fd.
Proof. unfold toggleCurrency. rewrite spread_with_currency. now repeat split. Qed.

(** ** addSpending, branch by branch *)

Lemma addSpending_alert (now : Z) (today : jsstring) (st : State) :
  FormData.amount (formData st) = []
  \/ le (parseFloat (FormData.amount (formData st))) zero = true ->
  addSpending now today st = ([ALERT_TEXT], st).
Proof.
  intros H. unfold addSpending.
  destruct H as [H|H]; rewrite H; [reflexivity|].
  now rewrite orb_true_r.
Qed.

Lemma addSpending_commit (now : Z) (today : jsstring) (st : State) :
  FormData.amount (formData st) <> [] ->
  le (parseFloat (FormData.amount (formData st))) zero = false ->
  addSpending now today st =
  ([], mkState (newSpending now today (formData st) :: spendings st)
         (filterCategory st) defaultFormData).
Proof.
  intros Hne Hle. unfold addSpending. apply truthy_true in Hne.
  now rewrite Hne, Hle.
Qed.

(** The alert is raised exactly when the amount is empty or compares
    [<= 0]; an unparsable amount (NaN) does not compare [<= 0]. *)
Lemma addSpending_alert_iff (now : Z) (today : jsstring) (st : State) :
  fst (addSpending now today st) <> [] <->
  FormData.amount (formData st) = []
  \/ le (parseFloat (FormData.amount (formData st))) zero = true.
Proof.
  split.
  - intros H. destruct (FormData.amount (formData st)) as [|c r] eqn:Ea; [now left|].
    right. destruct (le (parseFloat (c :: r)) zero) eqn:El; [reflexivity|].
    exfalso. apply H. rewrite addSpending_commit; [reflexivity| |]; now rewrite Ea.
  - intros H. now rewrite addSpending_alert.
Qed.

Lemma isFormValid_commits (now : Z) (today : jsstring) (st : State) :
  isFormValid (formData st) = true ->
  addSpending now today st =
  ([], mkState (newSpending now today (formData st) :: spendings st)
         (filterCategory st) defaultFormData).
Proof.
  unfold isFormValid. intros H. apply andb_true_iff in H as [Ht Hg].
  apply addSpending_commit; [now apply truthy_true|now apply gt_zero_not_le].
Qed.

Lemma not_isFormValid_no_commit (now : Z) (today : jsstring) (st : State) :
  isFormValid (formData st) = false ->
  parseFloat (FormData.amount (formData st)) <> NaN ->
  addSpending now today st = ([ALERT_TEXT], st).
Proof.
  unfold isFormValid. intros H Hnan. apply addSpending_alert.
  destruct (FormData.amount (formData st)) as [|c r]; [now left|right].
  simpl in H. destruct (le (parseFloat (c :: r)) zero) eqn:El; [reflexivity|].
  apply le_zero_false_iff in El as [Hp|Hn]; [|contradiction].
  apply gt_zero_iff in Hp. congruence.
Qed.

(** ** Runs *)

Lemma run_app (e1 e2 : list Event) (st : State) :
  run (e1 ++ e2) st =
  (fst (run e1 st) ++ fst (run e2 (snd (run e1 st))),
   snd (run e2 (snd (run e1 st)))).
Proof.
  revert st. induction e1 as [|ev r IH]; intros st; simpl.
  - now destruct (run e2 st).
  - destruct (step ev st) as [a1 st1]. rewrite IH.
    destruct (run r st1) as [a2 st2]. simpl.
    now rewrite app_assoc.
Qed.

(** A property every handler preserves holds after every run. *)
Lemma run_invariant (P : State -> Prop) :
  (forall ev st, P st -> P (snd (step ev st))) ->
  forall evs st, P st -> P (snd (run evs st)).
Proof.
  intros Hstep evs. induction evs as [|ev r IH]; intros st H; simpl; [exact H|].
  specialize (Hstep ev st H). destruct (step ev st) as [a1 st1].
  specialize (IH st1 Hstep). now destruct (run r st1).
Qed.

Lemma final_invariant (P : State -> Prop) :
  P initialState ->
  (forall ev st, P st -> P (snd (step ev st))) ->
  forall evs, P (final evs).
Proof. intros H0 Hstep evs. unfold final. now apply run_invariant. Qed.

(** What [addSpending] can do to the state: nothing, or one commit. *)
Lemma addSpending_cases (now : Z) (today : jsstring) (st : State) :
  addSpending now today st = ([ALERT_TEXT], st)
  \/ (FormData.amount (formData st) <> []
      /\ le (parseFloat (FormData.amount (formData st))) zero = false
      /\ addSpending now today st =
         ([], mkState (newSpending now today (formData st) :: spendings st)
                (filterCategory st) defaultFormData)).
Proof.
  destruct (FormData.amount (formData st)) as [|c r] eqn:Ea.
  - left. apply addSpending_alert. now left.
  - destruct (le (parseFloat (c :: r)) zero) eqn:El.
    + left. apply addSpending_alert. right. now rewrite Ea.
    + right. split; [discriminate|]. split; [reflexivity|].
      rewrite <- Ea in *. apply addSpending_commit; [rewrite Ea; discriminate|exact El].
Qed.

End HandlerFacts.

(* ===================================================================== *)
(** * Invariants of the reachable states                                  *)
(* ===================================================================== *)

Section Invariants.
Import JS Num App Spec.

(** A property preserved by the handlers of the events in a run holds at
    its end. *)
Lemma run_invariant_on (Q : Event -> Prop) (P : State -> Prop) :
  (forall ev st, Q ev -> P st -> P (snd (step ev st))) ->
  forall evs st, Forall Q evs -> P st -> P (snd (run evs st)).
Proof.
  intros Hstep evs. induction evs as [|ev r IH]; intros st HQ H; simpl; [exact H|].
  inversion HQ as [|? ? Hq Hr]; subst.
  specialize (Hstep ev st Hq H). destruct (step ev st) as [a1 st1].
  specialize (IH st1 Hr Hstep). now destruct (run r st1).
Qed.

Lemma with_formData_same (st : State) : with_formData st (formData st) = st.
Proof. now destruct st. Qed.

(** How one event moves the draft's amount and note: an input change
    decides, a commit resets both, everything else keeps them. *)
Lemma step_draft (ev : Event) (st : State) :
  formData (snd (step ev st)) = defaultFormData
  \/ (exists field value,
        ev = InputChange field value
        /\ formData (snd (step ev st)) =
           handleInputChange field value (formData st))
  \/ (FormData.amount (formData (snd (step ev st))) = FormData.amount (formData st)
      /\ FormData.note (formData (snd (step ev st))) = FormData.note (formData st)).
Proof.
  destruct ev as [field value| |c|now today|now today]; simpl.
  - right; left. now exists field, value.
  - right; right. pose proof (toggleCurrency_frame (formData st)) as (Ha & Hn & _).
    now split.
  - right; right. now split.
  - destruct (addSpending_cases now today st) as [H|(_ & _ & H)]; rewrite H; simpl.
    + right; right. now split.
    + now left.
  - destruct (submitDisabled (formData st)); simpl.
    + right; right. now split.
    + destruct (addSpending_cases now today st) as [H|(_ & _ & H)]; rewrite H; simpl.
      * right; right. now split.
      * now left.
Qed.

Lemma clean_amount_replace (v : jsstring) :
  (count_dots (replace_non_numeric v) <= 1)%nat ->
  clean_amount (replace_non_numeric v).
Proof. intros H. split; [apply replace_non_numeric_units|exact H]. Qed.

Lemma handleInputChange_clean (field value : jsstring) (fd : FormData.t) :
  clean_amount (FormData.amount fd) ->
  clean_amount (FormData.amount (handleInputChange field value fd)).
Proof.
  intros H. destruct (decide (field = lit "amount")) as [->|Ha].
  - rewrite handleInputChange_amount.
    destruct (Nat.leb_spec 2 (count_dots (replace_non_numeric value))); [exact H|].
    simpl. apply clean_amount_replace. lia.
  - destruct (decide (field = lit "note")) as [->|Hn].
    + rewrite handleInputChange_note.
      now destruct (List.length value <=? 140)%nat.
    + destruct (handleInputChange_other field value fd Ha Hn) as [-> _]. exact H.
Qed.

Lemma step_clean_amount (ev : Event) (st : State) :
  clean_amount (FormData.amount (formData st)) ->
  clean_amount (FormData.amount (formData (snd (step ev st)))).
Proof.
  intros H. destruct (step_draft ev st) as [E|[(f & v & _ & E)|[E _]]]; rewrite E.
  - split; [apply List.Forall_nil|unfold count_dots; simpl; lia].
  - now apply handleInputChange_clean.
  - exact H.
Qed.

Lemma handleInputChange_note_bound (field value : jsstring) (fd : FormData.t) :
  (List.length (FormData.note fd) <= 140)%nat ->
  (List.length (FormData.note (handleInputChange field value fd)) <= 140)%nat.
Proof.
  intros H. destruct (decide (field = lit "note")) as [->|Hn].
  - rewrite handleInputChange_note.
    destruct (Nat.leb_spec (List.length value) 140); simpl; lia.
  - destruct (decide (field = lit "amount")) as [->|Ha].
    + rewrite handleInputChange_amount.
      now destruct (2 <=? count_dots (replace_non_numeric value))%nat.
    + destruct (handleInputChange_other field value fd Ha Hn) as [_ ->]. exact H.
Qed.

(** What one event does to the ledger: nothing, or it puts the entry made
    from the current draft in front. *)
Lemma step_spendings (ev : Event) (st : State) :
  spendings (snd (step ev st)) = spendings st
  \/ (exists now today,
        (ev = AddSpending now today \/ ev = ClickAdd now today)
        /\ FormData.amount (formData st) <> []
        /\ le (parseFloat (FormData.amount (formData st))) zero = false
        /\ spendings (snd (step ev st)) =
           newSpending now today (formData st) :: spendings st).
Proof.
  destruct ev as [field value| |c|now today|now today]; simpl; auto.
  - destruct (addSpending_cases now today st) as [H|(Hne & Hle & H)];
      rewrite H; simpl; [now left|right].
    exists now, today. auto.
  - destruct (submitDisabled (formData st)); simpl; [now left|].
    destruct (addSpending_cases now today st) as [H|(Hne & Hle & H)];
      rewrite H; simpl; [now left|right].
    exists now, today. auto.
Qed.

Lemma step_notes_bounded (ev : Event) (st : State) :
  notes_bounded st -> notes_bounded (snd (step ev st)).
Proof.
  intros [Hd Hl]. split.
  - destruct (step_draft ev st) as [E|[(f & v & _ & E)|[_ E]]]; rewrite E.
    + simpl. lia.
    + now apply handleInputChange_note_bound.
    + exact Hd.
  - destruct (step_spendings ev st) as [E|(now & today & _ & _ & _ & E)]; rewrite E.
    + exact Hl.
    + constructor; [|exact Hl]. simpl.
      etransitivity; [apply trim_length|exact Hd].
Qed.

(** No committed amount compares [<= 0]: each is above zero or NaN. *)
Lemma step_amounts_not_le_zero (ev : Event) (st : State) :
  Forall (fun e => le (Spending.amount e) zero = false) (spendings st) ->
  Forall (fun e => le (Spending.amount e) zero = false) (spendings (snd (step ev st))).
Proof.
  intros H. destruct (step_spendings ev st) as [E|(now & today & _ & _ & Hle & E)];
    rewrite E; [exact H|]. constructor; [exact Hle|exact H].
Qed.

(** When every commit comes through the submit button, every committed
    amount is above zero. *)
Lemma step_ui_amounts_positive (ev : Event) (st : State) :
  match ev with AddSpending _ _ => False | _ => True end ->
  Forall (fun e => gt (Spending.amount e) zero = true) (spendings st) ->
  Forall (fun e => gt (Spending.amount e) zero = true) (spendings (snd (step ev st))).
Proof.
  intros Hui H. destruct ev as [field value| |c|now today|now today]; simpl;
    try exact H; [contradiction|].
  unfold submitDisabled. destruct (isFormValid (formData st)) eqn:Ev; simpl; [|exact H].
  rewrite isFormValid_commits by exact Ev. simpl.
  constructor; [|exact H]. simpl.
  unfold isFormValid in Ev. now apply andb_true_iff in Ev as [_ Ev].
Qed.

Lemma ui_only_amounts_positive (evs : list Event) :
  ui_only evs ->
  Forall (fun e => gt (Spending.amount e) zero = true) (spendings (final evs)).
Proof.
  intros H. unfold final.
  apply (run_invariant_on _ _ step_ui_amounts_positive evs initialState H).
  constructor.
Qed.

End Invariants.

(* ===================================================================== *)
(** * The validity gate and the commit                                    *)
(* ===================================================================== *)

Section Gate.
Import JS Num App Spec.

(** C5. For every draft, the submit control is enabled ([isFormValid]
    holds, [disabled] is off) if and only if the amount field is a
    non-empty string that [parseFloat] turns into a Number above zero. *)
Theorem C5_submit_enabled_iff_positive_amount (fd : FormData.t) :
  (isFormValid fd = true <->
   FormData.amount fd <> []
   /\ positive_number (parseFloat (FormData.amount fd)))
  /\ (submitDisabled fd = false <-> isFormValid fd = true).
Proof.
  split.
  - unfold isFormValid. rewrite andb_true_iff, truthy_true, gt_zero_iff.
    reflexivity.
  - unfold submitDisabled. destruct (isFormValid fd); simpl; split; congruence.
Qed.

(** The gate on two drafts: [50.75] enables the button, [0] does not. *)
Lemma C5_witness :
  isFormValid (FormData.mk (lit "Personal") (lit "50.75") (lit "MXN") [] ∅) = true
  /\ isFormValid (FormData.mk (lit "Personal") (lit "0") (lit "MXN") [] ∅) = false.
Proof.
  split.
  - apply (proj1 (C5_submit_enabled_iff_positive_amount _)).
    split; [discriminate|vm_compute; exact I].
  - destruct (isFormValid (FormData.mk (lit "Personal") (lit "0") (lit "MXN") [] ∅)) eqn:E;
      [|reflexivity].
    apply (proj1 (C5_submit_enabled_iff_positive_amount _)) in E as [_ E].
    vm_compute in E. contradiction.
Defined.

(** The two directions of the commit guard that the code does honour: an
    empty amount, or one that parses to a Number [<= 0], raises the alert
    and leaves the whole state alone; an amount that parses to a Number
    above zero commits silently. *)
Lemma addSpending_non_positive_aborts (now : Z) (today : jsstring) (st : State) :
  FormData.amount (formData st) = []
  \/ le (parseFloat (FormData.amount (formData st))) zero = true ->
  addSpending now today st = ([ALERT_TEXT], st).
Proof. apply addSpending_alert. Qed.

Lemma addSpending_positive_commits (now : Z) (today : jsstring) (st : State) :
  FormData.amount (formData st) <> [] ->
  positive_number (parseFloat (FormData.amount (formData st))) ->
  addSpending now today st =
  ([], mkState (newSpending now today (formData st) :: spendings st)
         (filterCategory st) defaultFormData).
Proof.
  intros Hne Hp. apply addSpending_commit; [exact Hne|].
  apply le_zero_false_iff. now left.
Qed.

(** The alert is raised if and only if the amount is empty or parses to a
    Number that is not NaN and not above zero. *)
Lemma addSpending_alert_characterised (now : Z) (today : jsstring) (st : State) :
  fst (addSpending now today st) <> [] <->
  FormData.amount (formData st) = []
  \/ (parseFloat (FormData.amount (formData st)) <> NaN
      /\ ~ positive_number (parseFloat (FormData.amount (formData st)))).
Proof.
  rewrite addSpending_alert_iff. split; intros [H|H]; auto; right.
  - split.
    + intros E. rewrite E in H. discriminate.
    + intros Hp. assert (le (parseFloat (FormData.amount (formData st))) zero = false)
        by (apply le_zero_false_iff; now left). congruence.
  - destruct H as [Hn Hp].
    destruct (le (parseFloat (FormData.amount (formData st))) zero) eqn:E; [reflexivity|].
    apply le_zero_false_iff in E as [E|E]; contradiction.
Qed.

(** C1 (defect in the code). The draft amount [.] is unparsable
    ([parseFloat] gives NaN), and the user can type it. The
    specification wants the alert and an untouched ledger; [addSpending]
    raises no alert, puts an entry whose amount is NaN in front of the
    ledger and resets the draft, because [NaN <= 0] is false. *)
Theorem C1_addSpending_commits_unparsable_amount
  (now : Z) (today flt c u n : jsstring) (led : list Spending.t)
  (x : gmap jsstring jsstring) :
  parseFloat (lit ".") = NaN
  /\ FormData.amount (handleInputChange (lit "amount") (lit ".") defaultFormData)
     = lit "."
  /\ isFormValid (FormData.mk c (lit ".") u n x) = false
  /\ addSpending now today (mkState led flt (FormData.mk c (lit ".") u n x)) =
     ([], mkState (Spending.mk now c NaN u (trim n) today :: led) flt
            defaultFormData).
Proof. repeat split. Qed.

(** C2 (defect in the code). Typing [.] into the amount field and then
    calling [addSpending] directly reaches a ledger whose only entry has
    the amount NaN, which is not above zero. *)
Theorem C2_reachable_entry_amount_not_positive :
  let st := final [InputChange (lit "amount") (lit "."); AddSpending 0 []] in
  exists e,
    spendings st = [e]
    /\ Spending.amount e = NaN
    /\ gt (Spending.amount e) zero = false.
Proof.
  eexists. split; [vm_compute; reflexivity|]. split; reflexivity.
Qed.

(** What does hold of every reachable ledger: no committed amount compares
    [<= 0] (each is above zero or NaN). *)
Lemma reachable_amounts_not_le_zero (evs : list Event) :
  Forall (fun e => positive_number (Spending.amount e) \/ Spending.amount e = NaN)
    (spendings (final evs)).
Proof.
  apply (List.Forall_impl (P := fun e => le (Spending.amount e) zero = false)).
  - intros e. apply le_zero_false_iff.
  - apply (final_invariant
             (fun st => Forall (fun e => le (Spending.amount e) zero = false)
                          (spendings st))).
    + constructor.
    + apply step_amounts_not_le_zero.
Qed.

(** Through the submit button alone, every committed amount is above
    zero. *)
Lemma ui_only_amounts_above_zero (evs : list Event) :
  ui_only evs ->
  Forall (fun e => positive_number (Spending.amount e)) (spendings (final evs)).
Proof.
  intros H. apply (List.Forall_impl (P := fun e => gt (Spending.amount e) zero = true)).
  - intros e. apply gt_zero_iff.
  - now apply ui_only_amounts_positive.
Qed.

(** In the reachable states the commit guard and the validity gate
    disagree in exactly one draft: the one whose amount is the lone
    point. *)
Lemma reachable_guard_gate_gap (evs : list Event) (now : Z) (today : jsstring) :
  fst (addSpending now today (final evs)) = []
  /\ isFormValid (formData (final evs)) = false
  <-> FormData.amount (formData (final evs)) = [DOT].
Proof.
  assert (Hc : clean_amount (FormData.amount (formData (final evs)))).
  { apply (final_invariant (fun st => clean_amount (FormData.amount (formData st)))).
    - split; [apply List.Forall_nil|unfold count_dots; simpl; lia].
    - apply step_clean_amount. }
  set (st := final evs) in *. split.
  - intros [Ha Hv].
    destruct (addSpending_cases now today st) as [E|(Hne & Hle & _)];
      [rewrite E in Ha; discriminate Ha|].
    apply le_zero_false_iff in Hle as [Hp|Hn].
    + apply gt_zero_iff in Hp. unfold isFormValid in Hv.
      apply truthy_true in Hne. rewrite Hne, Hp in Hv. discriminate Hv.
    + apply (clean_amount_unparsable _ Hc) in Hn as [Hn|Hn];
        [contradiction|exact Hn].
  - intros H. split.
    + rewrite addSpending_commit; [reflexivity| |]; now rewrite H.
    + unfold isFormValid. now rewrite H.
Qed.

End Gate.

(* ===================================================================== *)
(** * The Form State Manager                                              *)
(* ===================================================================== *)

Section FormStateManager.
Import JS Num App Spec.

(** C9. For every string [v], in or out of [CATEGORIES],
    [handleInputChange] with field ['category'] stores [v] in the draft
    unvalidated and leaves the other fields alone; with a valid amount in
    the draft, the next [addSpending] puts an entry carrying [v] in front
    of the ledger without an alert. *)
Theorem C9_category_stored_unvalidated
  (v : jsstring) (st : State) (now : Z) (today : jsstring) :
  let st1 := snd (step (InputChange (lit "category") v) st) in
  formData st1 =
    FormData.mk v (FormData.amount (formData st)) (FormData.currency (formData st))
      (FormData.note (formData st)) (FormData.extra (formData st))
  /\ (isFormValid (formData st) = true ->
      exists e,
        step (AddSpending now today) st1 =
          ([], mkState (e :: spendings st) (filterCategory st) defaultFormData)
        /\ Spending.category e = v
        /\ Spending.amount e = parseFloat (FormData.amount (formData st))).
Proof.
  simpl. rewrite handleInputChange_category. split; [reflexivity|].
  intros Hv. eexists. split.
  - rewrite isFormValid_commits; [reflexivity|]. exact Hv.
  - split; reflexivity.
Qed.

(** A category outside [CATEGORIES] travels from the handler into the
    ledger. *)
Lemma C9_witness :
  let st := mkState [] (lit "All")
              (FormData.mk (lit "General") (lit "12.5") (lit "MXN") [] ∅) in
  let st1 := snd (step (InputChange (lit "category") (lit "Groceries")) st) in
  ~ In (lit "Groceries") CATEGORIES
  /\ isFormValid (formData st) = true
  /\ exists e,
       step (AddSpending 7 (lit "1/2/2026")) st1 =
         ([], mkState (e :: spendings st) (filterCategory st) defaultFormData)
       /\ Spending.category e = lit "Groceries"
       /\ Spending.amount e = parseFloat (FormData.amount (formData st)).
Proof.
  intros st st1. split.
  - simpl. intros [H|[H|[H|[H|[]]]]]; discriminate H.
  - split; [reflexivity|].
    apply (proj2 (C9_category_stored_unvalidated (lit "Groceries") st 7 (lit "1/2/2026"))).
    reflexivity.
Defined.

(** C10. A rejected input update (an amount update whose stripped text
    holds a second [.], or a note update longer than 140 code units)
    leaves the entire draft exactly as it was, and with it the whole
    component state; no alert is raised. *)
Theorem C10_rejected_update_keeps_draft
  (field value : jsstring) (st : State) :
  rejected field value = true ->
  handleInputChange field value (formData st) = formData st
  /\ step (InputChange field value) st = ([], st).
Proof.
  intros H.
  assert (E : handleInputChange field value (formData st) = formData st).
  { unfold rejected in H. apply orb_true_iff in H as [H|H];
      apply andb_true_iff in H as [Hf Hv]; apply strict_eq_true in Hf; subst field.
    - rewrite handleInputChange_amount. now rewrite Hv.
    - rewrite handleInputChange_note. apply Nat.ltb_lt in Hv.
      destruct (Nat.leb_spec (List.length value) 140); [lia|reflexivity]. }
  split; [exact E|]. simpl. now rewrite E, with_formData_same.
Qed.

(** A second point and a 141-unit note, each dropped with the state
    intact. *)
Lemma C10_witness :
  let st := mkState [] (lit "Auto")
              (FormData.mk (lit "House") (lit "1.5") (lit "USD") (lit "rent") ∅) in
  rejected (lit "amount") (lit "1.5.") = true
  /\ rejected (lit "note") (repeat 120 141) = true
  /\ step (InputChange (lit "amount") (lit "1.5.")) st = ([], st)
  /\ step (InputChange (lit "note") (repeat 120 141)) st = ([], st).
Proof.
  intros st. split; [reflexivity|]. split; [reflexivity|]. split.
  - apply (C10_rejected_update_keeps_draft (lit "amount") (lit "1.5.") st). reflexivity.
  - apply (C10_rejected_update_keeps_draft (lit "note") (repeat 120 141) st). reflexivity.
Defined.

(** C7. In every reachable state the amount field holds only decimal
    digits and at most one [.]. The incoming value is stripped of every
    other code unit; the stripped text becomes the field value when it
    has at most one [.], and the update is dropped, the draft kept, when
    it has two or more. *)
Theorem C7_amount_field_digits_and_one_dot :
  (forall evs, clean_amount (FormData.amount (formData (final evs))))
  /\ (forall v, replace_non_numeric v = List.filter numeric_unit v)
  /\ (forall v fd,
        (count_dots (replace_non_numeric v) <= 1)%nat ->
        handleInputChange (lit "amount") v fd =
        FormData.mk (FormData.category fd) (replace_non_numeric v)
          (FormData.currency fd) (FormData.note fd) (FormData.extra fd))
  /\ (forall v fd,
        (2 <= count_dots (replace_non_numeric v))%nat ->
        handleInputChange (lit "amount") v fd = fd).
Proof.
  split; [|split; [|split]].
  - apply (final_invariant (fun st => clean_amount (FormData.amount (formData st)))).
    + split; [apply List.Forall_nil|unfold count_dots; simpl; lia].
    + apply step_clean_amount.
  - apply replace_non_numeric_filter.
  - intros v fd H. rewrite handleInputChange_amount.
    destruct (Nat.leb_spec 2 (count_dots (replace_non_numeric v))); [lia|reflexivity].
  - intros v fd H. rewrite handleInputChange_amount.
    destruct (Nat.leb_spec 2 (count_dots (replace_non_numeric v))); [reflexivity|lia].
Qed.

(** One update that is stripped and kept, one that is dropped. *)
Lemma C7_witness :
  FormData.amount (handleInputChange (lit "amount") (lit "$1,2a.5") defaultFormData)
    = lit "12.5"
  /\ handleInputChange (lit "amount") (lit "1.2.3")
       (FormData.mk (lit "Auto") (lit "9.9") (lit "USD") [] ∅)
     = FormData.mk (lit "Auto") (lit "9.9") (lit "USD") [] ∅.
Proof.
  destruct C7_amount_field_digits_and_one_dot as (_ & _ & Hacc & Hrej). split.
  - rewrite Hacc; [reflexivity|]. vm_compute. lia.
  - apply Hrej. vm_compute. lia.
Defined.

(** C4 (defect in the code). Typing [123.45.67] into the empty amount
    field does not leave it at [123.45]. The second point is dropped,
    but the field then still shows [123.45], so the next key sends
    [123.456], which holds one point and is accepted; the field ends at
    [123.4567]. The shipped test expects [123.45]. *)
Theorem C4_typing_keeps_digits_after_dropped_point :
  let at_45 := FormData.mk (lit "General") (lit "123.45") (lit "MXN") [] ∅ in
  typeKeys (lit "123.45") defaultFormData = at_45
  /\ handleInputChange (lit "amount") (lit "123.45.") at_45 = at_45
  /\ FormData.amount (handleInputChange (lit "amount") (lit "123.456") at_45)
     = lit "123.456"
  /\ FormData.amount (typeKeys (lit "123.45.67") defaultFormData) = lit "123.4567"
  /\ FormData.amount (typeKeys (lit "123.45.67") defaultFormData) <> lit "123.45".
Proof.
  repeat split; try (vm_compute; reflexivity). vm_compute. discriminate.
Qed.

(** The same from any draft whose amount field is empty. *)
Remark typing_into_controlled_input (fd : FormData.t) :
  FormData.amount fd = [] ->
  FormData.amount (typeKeys (lit "123.45.67") fd) = lit "123.4567".
Proof.
  destruct fd as [c a u n x]. intros H. simpl in H. subst a.
  vm_compute. reflexivity.
Qed.

End FormStateManager.

(* ===================================================================== *)
(** * Notes                                                               *)
(* ===================================================================== *)

Section Notes.
Import JS Num App Spec.

(** C3, as it is written, fails twice. A note update of 141 code units is
    not cut to its first 140: the draft keeps its previous note (here the
    empty one). And a committed note is not the input as typed: [trim]
    removes the white space at both ends. *)
Lemma C3_counterexample :
  let s := repeat 97 141 in
  let typed := lit " tip " in
  (FormData.note (handleInputChange (lit "note") s defaultFormData) = []
   /\ firstn 140 s = repeat 97 140
   /\ FormData.note (handleInputChange (lit "note") s defaultFormData)
      <> firstn 140 s)
  /\ (let st := final [InputChange (lit "amount") (lit "5");
                       InputChange (lit "note") typed;
                       AddSpending 1 []] in
      List.map Spending.note (spendings st) = [lit "tip"]
      /\ List.map Spending.note (spendings st) <> [firstn 140 typed]).
Proof.
  split.
  - split; [reflexivity|]. split; [reflexivity|]. discriminate.
  - split; [reflexivity|]. discriminate.
Qed.

(** C3 (amended). A note update of at most 140 code units replaces the
    draft's note and nothing else; a longer one is dropped whole and the
    draft stays as it was. So in every reachable state the draft's note
    and every committed note have at most 140 code units, and a commit
    stores the draft's note with the white space at both ends trimmed. *)
Theorem C3_note_update_kept_or_dropped :
  (forall s fd,
     (List.length s <= 140)%nat ->
     handleInputChange (lit "note") s fd =
     FormData.mk (FormData.category fd) (FormData.amount fd)
       (FormData.currency fd) s (FormData.extra fd))
  /\ (forall s fd,
        (140 < List.length s)%nat ->
        handleInputChange (lit "note") s fd = fd)
  /\ (forall evs, notes_bounded (final evs))
  /\ (forall now today st,
        fst (addSpending now today st) = [] ->
        exists e,
          spendings (snd (addSpending now today st)) = e :: spendings st
          /\ Spending.note e = trim (FormData.note (formData st))).
Proof.
  split; [|split; [|split]].
  - intros s fd H. rewrite handleInputChange_note.
    destruct (Nat.leb_spec (List.length s) 140); [reflexivity|lia].
  - intros s fd H. rewrite handleInputChange_note.
    destruct (Nat.leb_spec (List.length s) 140); [lia|reflexivity].
  - apply (final_invariant notes_bounded).
    + split; [simpl; lia|constructor].
    + apply step_notes_bounded.
  - intros now today st H.
    destruct (addSpending_cases now today st) as [E|(_ & _ & E)]; rewrite E in *.
    + discriminate H.
    + eexists. split; reflexivity.
Qed.

(** A short note is kept as typed; a 141-unit note leaves the old one. *)
Lemma C3_witness :
  handleInputChange (lit "note") (lit "Coffee and lunch") defaultFormData =
    FormData.mk (lit "General") [] (lit "MXN") (lit "Coffee and lunch") ∅
  /\ handleInputChange (lit "note") (repeat 97 141)
       (FormData.mk (lit "General") [] (lit "MXN") (lit "kept") ∅) =
     FormData.mk (lit "General") [] (lit "MXN") (lit "kept") ∅.
Proof.
  destruct C3_note_update_kept_or_dropped as (Hkeep & Hdrop & _ & _). split.
  - apply (Hkeep (lit "Coffee and lunch") defaultFormData). vm_compute. lia.
  - apply Hdrop. vm_compute. lia.
Defined.

End Notes.

(* ===================================================================== *)
(** * The ledger                                                          *)
(* ===================================================================== *)

Section Ledger.
Import JS Num App Spec.

(** Whatever the events, the ledger only grows at the front. *)
Lemma run_spendings_suffix (evs : list Event) (st : State) :
  exists new, spendings (snd (run evs st)) = new ++ spendings st.
Proof.
  revert st. induction evs as [|ev r IH]; intros st; simpl.
  - now exists [].
  - destruct (step ev st) as [a1 st1] eqn:Es.
    destruct (IH st1) as [new Hn]. destruct (run r st1) as [a2 st2]. simpl in *.
    pose proof (step_spendings ev st) as Hs. rewrite Es in Hs. simpl in Hs.
    destruct Hs as [E|(now & today & _ & _ & _ & E)]; rewrite Hn, E.
    + now exists new.
    + exists (new ++ [newSpending now today (formData st)]).
      now rewrite <- app_assoc.
Qed.

(** A run whose submits are all valid raises no alert and stacks the
    submitted entries, newest first, on the ledger it started from. *)
Lemma valid_run (evs : list Event) (st : State) :
  valid_submits evs st ->
  fst (run evs st) = []
  /\ spendings (snd (run evs st)) = rev (submitted evs st) ++ spendings st
  /\ List.length (submitted evs st) = submits evs.
Proof.
  revert st. induction evs as [|ev r IH]; intros st Hv.
  - now repeat split.
  - destruct Hv as [Hok Hr]. specialize (IH _ Hr) as (Ha & Hs & Hl).
    simpl run. simpl submitted. unfold submits in *. simpl List.filter.
    destruct (step ev st) as [a1 st1] eqn:Es. simpl snd in *.
    destruct (run r st1) as [a2 st2]. simpl in Ha, Hs. subst a2.
    destruct ev as [field value| |c|now today|now today]; simpl in Es, Hok |- *.
    1-3: injection Es as <- <-; simpl in *; repeat split; [exact Hs|exact Hl].
    + rewrite isFormValid_commits in Es by auto. injection Es as <- <-.
      simpl in *. split; [reflexivity|]. split; [|now rewrite Hl].
      rewrite Hs, <- app_assoc. reflexivity.
    + unfold submitDisabled in Es. rewrite (Hok eq_refl) in Es. simpl in Es.
      rewrite isFormValid_commits in Es by auto. injection Es as <- <-.
      simpl in *. split; [reflexivity|]. split; [|now rewrite Hl].
      rewrite Hs, <- app_assoc. reflexivity.
Qed.

(** C6. After any run from the empty ledger in which every submit is
    valid, the ledger has as many entries as there were submits and lists
    the submitted entries in reverse submission order (newest first); no
    alert was raised; and whatever happens next, the entries already
    committed stay, unchanged and in place, at the end of the ledger. *)
Theorem C6_ledger_newest_first (evs : list Event) :
  valid_submits evs initialState ->
  List.length (spendings (final evs)) = submits evs
  /\ spendings (final evs) = rev (submitted evs initialState)
  /\ fst (run evs initialState) = []
  /\ (forall more, exists new,
        spendings (final (evs ++ more)) = new ++ spendings (final evs)).
Proof.
  intros Hv. destruct (valid_run evs initialState Hv) as (Ha & Hs & Hl).
  unfold final. simpl in Hs. rewrite app_nil_r in Hs.
  split; [now rewrite Hs, length_rev|].
  split; [exact Hs|]. split; [exact Ha|].
  intros more. rewrite run_app. simpl. apply run_spendings_suffix.
Qed.

(** Three valid submits, by the button and by a direct call: the ledger
    lists them newest first. *)
Lemma C6_witness :
  let evs :=
    [InputChange (lit "amount") (lit "10.00"); ClickAdd 1 (lit "1/2/2026");
     InputChange (lit "category") (lit "Personal");
     InputChange (lit "amount") (lit "20.00"); ClickAdd 2 (lit "1/2/2026");
     InputChange (lit "category") (lit "Auto");
     InputChange (lit "amount") (lit "30.00"); AddSpending 3 (lit "1/2/2026")] in
  valid_submits evs initialState
  /\ List.length (spendings (final evs)) = 3%nat
  /\ List.map Spending.id (spendings (final evs)) = [3%Z; 2%Z; 1%Z].
Proof.
  intros evs.
  assert (Hv : valid_submits evs initialState).
  { vm_compute. repeat split; intros; try discriminate; reflexivity. }
  split; [exact Hv|].
  destruct (C6_ledger_newest_first evs Hv) as (Hlen & Hrev & _ & _).
  split; [exact Hlen|]. rewrite Hrev. reflexivity.
Defined.

End Ledger.

(* ===================================================================== *)
(** * Facts about toFixed                                                 *)
(* ===================================================================== *)

Section ToFixedFacts.
Import JS Num Spec.

Lemma uint_units_digits (u : Decimal.uint) :
  Forall (fun c => isDigit c = true) (uint_units u).
Proof. induction u; simpl; constructor; auto. Qed.

Lemma uint_units_nonempty (u : Decimal.uint) : u <> Decimal.Nil -> uint_units u <> [].
Proof. destruct u; simpl; intros H; congruence. Qed.

Lemma decimal_digits (n : N) : Forall (fun c => isDigit c = true) (decimal n).
Proof. apply uint_units_digits. Qed.

Lemma decimal_nonempty (n : N) : decimal n <> [].
Proof.
  unfold decimal. apply uint_units_nonempty. destruct n as [|p]; simpl.
  - discriminate.
  - apply DecimalPos.Unsigned.to_uint_nonnil.
Qed.

Lemma span_digits_app (ds : jsstring) (c : codeunit) (r : jsstring) :
  Forall (fun c => isDigit c = true) ds ->
  isDigit c = false ->
  span_digits (ds ++ c :: r) = (ds, c :: r).
Proof.
  intros Hd Hc. induction Hd as [|d ds Hd _ IH]; simpl.
  - now rewrite Hc.
  - now rewrite Hd, IH.
Qed.

Lemma digits_value_acc (u : Decimal.uint) (acc : positive) :
  fold_left (fun a c => 10 * a + (c - 48)) (uint_units u) (Npos acc) =
  Npos (Pos.of_uint_acc u acc).
Proof.
  revert acc. induction u as [|u IH|u IH|u IH|u IH|u IH|u IH|u IH|u IH|u IH|u IH];
    intros acc; simpl uint_units; simpl fold_left; [reflexivity|..];
    cbn [Pos.of_uint_acc]; rewrite <- IH; f_equal; lia.
Qed.

Lemma digits_value_uint (u : Decimal.uint) :
  digits_value (uint_units u) = Pos.of_uint u.
Proof.
  unfold digits_value.
  induction u as [|u IH|u IH|u IH|u IH|u IH|u IH|u IH|u IH|u IH|u IH];
    simpl uint_units; simpl fold_left; simpl Pos.of_uint;
    [reflexivity|exact IH|..]; apply digits_value_acc.
Qed.

(** Reading back the decimal representation gives the number. *)
Lemma digits_value_decimal (n : N) : digits_value (decimal n) = n.
Proof.
  unfold decimal. rewrite digits_value_uint. apply DecimalN.Unsigned.of_to.
Qed.

Lemma digits_value_zeros (k : nat) (m : jsstring) :
  digits_value (repeat ZERO k ++ m) = digits_value m.
Proof.
  unfold digits_value. induction k as [|k IH]; [reflexivity|exact IH].
Qed.

(** The fixed-notation branch with two fraction digits always yields one
    or more digits, a point and two digits, and the digits read [n]. *)
Lemma fixed_digits_2_shape (n : N) :
  exists ip f1 f2,
    fixed_digits 2 n = ip ++ [DOT; f1; f2]
    /\ ip <> []
    /\ Forall (fun c => isDigit c = true) (ip ++ [f1; f2])
    /\ digits_value (ip ++ [f1; f2]) = n.
Proof.
  unfold fixed_digits.
  set (m := if n =? 0 then [ZERO] else decimal n).
  assert (Hm : Forall (fun c => isDigit c = true) m /\ m <> []
               /\ digits_value m = n).
  { unfold m. destruct (N.eqb_spec n 0) as [E|_].
    - split; [repeat constructor|]. split; [discriminate|now rewrite E].
    - split; [apply decimal_digits|].
      split; [apply decimal_nonempty|apply digits_value_decimal]. }
  destruct Hm as (Hmd & Hmn & Hmv).
  set (m' := if (List.length m <=? 2)%nat
             then repeat ZERO (2 + 1 - List.length m) ++ m else m).
  assert (Hm' : Forall (fun c => isDigit c = true) m'
                /\ (3 <= List.length m')%nat /\ digits_value m' = n).
  { unfold m'. destruct (Nat.leb_spec (List.length m) 2) as [Hk|Hk].
    - split; [|split].
      + apply Forall_app. split; [|exact Hmd].
        apply List.Forall_forall. intros c Hc.
        apply repeat_spec in Hc. now subst c.
      + rewrite length_app, repeat_length. lia.
      + now rewrite digits_value_zeros.
    - split; [exact Hmd|]. split; [lia|exact Hmv]. }
  destruct Hm' as (Hd & Hl & Hv).
  set (k := List.length m') in *.
  pose proof (firstn_skipn (k - 2) m') as Hsplit.
  assert (Hsl : List.length (skipn (k - 2) m') = 2%nat)
    by (rewrite length_skipn; fold k; lia).
  assert (Hfl : List.length (firstn (k - 2) m') = (k - 2)%nat)
    by (rewrite length_firstn; fold k; lia).
  destruct (skipn (k - 2) m') as [|f1 [|f2 [|? ?]]]; try discriminate Hsl.
  exists (firstn (k - 2) m'), f1, f2.
  split; [reflexivity|]. split.
  - intros E. rewrite E in Hfl. simpl in Hfl. lia.
  - rewrite Hsplit. now split.
Qed.

(** [nearest_scaled 2] is the nearest number of hundredths. *)
Lemma nearest_scaled_2_nearest (m : positive) (e : Z) :
  is_nearest_hundredth m e (nearest_scaled 2 m e).
Proof.
  unfold is_nearest_hundredth, nearest_scaled.
  change (10 ^ Z.of_nat 2)%Z with 100%Z.
  destruct (Z.leb_spec 0 e) as [He|He].
  - assert (0 < 2 ^ e)%Z by (apply Z.pow_pos_nonneg; lia).
    rewrite Z2N.id by nia. lia.
  - replace (1 - e)%Z with (Z.succ (- e)) by lia.
    rewrite Z.pow_succ_r by lia.
    assert (HP : (0 < 2 ^ (- e))%Z) by (apply Z.pow_pos_nonneg; lia).
    set (P := (2 ^ (- e))%Z) in *.
    set (sc := (Zpos m * 100)%Z).
    assert (Hq : (0 <= (2 * sc + P) / (2 * P))%Z)
      by (apply Z.div_pos; unfold sc; lia).
    rewrite Z2N.id by exact Hq.
    pose proof (Z.mul_div_le (2 * sc + P) (2 * P) ltac:(lia)) as Hlo.
    pose proof (Z.mul_succ_div_gt (2 * sc + P) (2 * P) ltac:(lia)) as Hhi.
    unfold sc in *. split; nia.
Qed.

Lemma fixed2_shape (neg : bool) (ip : jsstring) (f1 f2 : codeunit) :
  ip <> [] ->
  Forall (fun c => isDigit c = true) ip ->
  isDigit f1 = true -> isDigit f2 = true ->
  fixed2 ((if neg then [MINUS] else []) ++ ip ++ [DOT; f1; f2]) = true.
Proof.
  intros Hne Hd H1 H2.
  assert (Hspan : span_digits (ip ++ [DOT; f1; f2]) = (ip, [DOT; f1; f2]))
    by (apply span_digits_app; [exact Hd|reflexivity]).
  destruct ip as [|d ip']; [contradiction|].
  assert (Hdd : isDigit d = true) by (inversion Hd; assumption).
  assert (Hdm : (d =? MINUS) = false).
  { destruct (N.eqb_spec d MINUS) as [->|]; [discriminate Hdd|reflexivity]. }
  unfold fixed2. destruct neg.
  - change ([MINUS] ++ (d :: ip') ++ [DOT; f1; f2])
      with (MINUS :: ((d :: ip') ++ [DOT; f1; f2])).
    cbv beta iota zeta. rewrite N.eqb_refl, Hspan, H1, H2. reflexivity.
  - change ([] ++ (d :: ip') ++ [DOT; f1; f2])
      with (d :: (ip' ++ [DOT; f1; f2])).
    cbv beta iota zeta. rewrite Hdm.
    change (d :: (ip' ++ [DOT; f1; f2])) with ((d :: ip') ++ [DOT; f1; f2]).
    rewrite Hspan, H1, H2. reflexivity.
Qed.

(** A finite Number of magnitude below 10^21 is rendered by [toFixed(2)]
    as a fixed-2-decimal string. *)
Lemma toFixed_2_fixed2 (x : Number) :
  fixed_range x = true -> fixed2 (toFixed 2 x) = true.
Proof.
  destruct x as [s|s| |s m e]; unfold fixed_range, toFixed; try discriminate.
  - intros _. reflexivity.
  - intros H. apply negb_true_iff in H. rewrite H.
    destruct (fixed_digits_2_shape (nearest_scaled 2 m e))
      as (ip & f1 & f2 & -> & Hne & Hd & _).
    apply Forall_app in Hd as [Hd Hf].
    inversion Hf as [|? ? H1 Hf']; subst. inversion Hf' as [|? ? H2 _]; subst.
    now apply fixed2_shape.
Qed.

(** In its fixed-notation branch [toFixed(2)] writes the number of
    hundredths nearest to the magnitude, after the sign. *)
Lemma toFixed_2_hundredths (s : bool) (m : positive) (e : Z) :
  ge_1e21 m e = false ->
  renders_hundredths (toFixed 2 (S754_finite s m e)) s (nearest_scaled 2 m e).
Proof.
  intros H. unfold toFixed. rewrite H.
  destruct (fixed_digits_2_shape (nearest_scaled 2 m e))
    as (ip & f1 & f2 & -> & Hne & Hd & Hv).
  now exists ip, f1, f2.
Qed.

End ToFixedFacts.

(* ===================================================================== *)
(** * The derived view                                                    *)
(* ===================================================================== *)

Section DerivedView.
Import JS Num App Spec.

Lemma fold_amounts (l : list Spending.t) (acc : Number) :
  fold_left (fun total spending => add total (Spending.amount spending)) l acc =
  fold_left add (List.map Spending.amount l) acc.
Proof. revert acc. induction l as [|e r IH]; intros acc; simpl; auto. Qed.

Lemma filter_in_category_all (l : list Spending.t) :
  filter (in_category (lit "All")) l = l.
Proof.
  induction l as [|e r IH]; [reflexivity|].
  rewrite filter_cons_True by now left. now rewrite IH.
Qed.

Lemma filter_in_category_other (c : jsstring) (l : list Spending.t) :
  c <> lit "All" ->
  filter (in_category c) l =
  List.filter (fun spending => strict_eq (Spending.category spending) c) l.
Proof.
  intros Hc. induction l as [|e r IH]; [reflexivity|]. simpl.
  destruct (strict_eq (Spending.category e) c) eqn:E.
  - apply strict_eq_true in E. rewrite filter_cons_True by now right.
    now rewrite IH.
  - apply strict_eq_false in E. rewrite filter_cons_False; [exact IH|].
    intros [H|H]; contradiction.
Qed.

(** The total is the left-to-right Number sum over exactly the entries of
    the requested category. *)
Lemma getTotalByCategory_sum (ledger : list Spending.t) (c : jsstring) :
  getTotalByCategory ledger c = sum_amounts (filter (in_category c) ledger).
Proof.
  unfold getTotalByCategory, sum_amounts. rewrite fold_amounts.
  destruct (strict_eq c (lit "All")) eqn:E.
  - apply strict_eq_true in E. subst c. now rewrite filter_in_category_all.
  - apply strict_eq_false in E. now rewrite filter_in_category_other.
Qed.

Lemma totalText_eq (ledger : list Spending.t) (c : jsstring) :
  totalText ledger c =
  lit "$" ++ toFixed 2 (getTotalByCategory ledger c) ++ lit " MXN".
Proof. reflexivity. Qed.

(** The selection and the sum look at categories and amounts only. *)
Lemma getTotalByCategory_pairs (ledger : list Spending.t) (c : jsstring) :
  getTotalByCategory ledger c =
  fold_left (fun total p => add total (snd p))
    (if strict_eq c (lit "All")
     then List.map (fun e => (Spending.category e, Spending.amount e)) ledger
     else List.filter (fun p : jsstring * Number => strict_eq (fst p) c)
            (List.map (fun e => (Spending.category e, Spending.amount e)) ledger))
    zero.
Proof.
  unfold getTotalByCategory. generalize zero.
  destruct (strict_eq c (lit "All")).
  - induction ledger as [|e r IH]; intros acc; simpl; auto.
  - induction ledger as [|e r IH]; intros acc; simpl; auto.
    destruct (strict_eq (Spending.category e) c); simpl; auto.
Qed.

Lemma totalText_currency_blind (l1 l2 : list Spending.t) (c : jsstring) :
  same_but_currency l1 l2 -> totalText l1 c = totalText l2 c.
Proof.
  intros H. unfold totalText. rewrite !getTotalByCategory_pairs.
  unfold same_but_currency in H. now rewrite H.
Qed.

(** C8, as it is written, fails twice. One committed amount of 10^21
    (typed as a 1 followed by 21 zeros) makes the total 10^21, which
    [toFixed(2)] renders in exponent notation, not with two decimals. And
    the total is a Number sum, not the arithmetic one: the amounts 10^16
    and 1 are both exact, their total is 10^16 again. *)
Lemma C8_counterexample :
  (let st := final [InputChange (lit "amount") (lit "1000000000000000000000");
                    AddSpending 1 []] in
   totalText (spendings st) (lit "All") = lit "$1e+21 MXN"
   /\ ~ (exists body,
           fixed2 body = true
           /\ totalText (spendings st) (lit "All") = lit "$" ++ body ++ lit " MXN"))
  /\ (let st := final [InputChange (lit "amount") (lit "10000000000000000");
                       AddSpending 1 [];
                       InputChange (lit "amount") (lit "1");
                       AddSpending 2 []] in
      List.map (fun e => units (Spending.amount e)) (spendings st) =
        [Some (2 ^ 1074)%Z; Some (10 ^ 16 * 2 ^ 1074)%Z]
      /\ units (getTotalByCategory (spendings st) (lit "All")) =
         Some (10 ^ 16 * 2 ^ 1074)%Z
      /\ units (getTotalByCategory (spendings st) (lit "All")) <>
         Some (2 ^ 1074 + 10 ^ 16 * 2 ^ 1074)%Z
      /\ totalText (spendings st) (lit "All") = lit "$10000000000000000.00 MXN").
Proof.
  split.
  - split; [vm_compute; reflexivity|].
    intros (body & Hf & He).
    assert (E : totalText
                  (spendings
                     (final [InputChange (lit "amount") (lit "1000000000000000000000");
                             AddSpending 1 []]))
                  (lit "All") = lit "$" ++ lit "1e+21" ++ lit " MXN")
      by (vm_compute; reflexivity).
    rewrite E in He. apply app_inv_head in He. apply app_inv_tail in He.
    subst body. discriminate Hf.
  - split; [vm_compute; reflexivity|]. split; [vm_compute; reflexivity|].
    split; [|vm_compute; reflexivity].
    vm_compute. intros H. discriminate H.
Qed.

(** C8 (amended). For every ledger and every requested category [c], the
    total is the sum, accumulated left to right from 0 in Number
    arithmetic, of the amounts of exactly the entries whose category
    equals [c] (all entries when [c] is ['All']); it is displayed as
    [$], then [toFixed(2)] of the total, then the fixed suffix [MXN],
    whatever the currencies of the entries. When the total is finite and
    of magnitude below 10^21 that rendering is a fixed-2-decimal string,
    namely the number of hundredths nearest to the total; an empty
    matching subset yields [$0.00 MXN]. *)
Theorem C8_category_total (ledger : list Spending.t) (c : jsstring) :
  let total := getTotalByCategory ledger c in
  total = sum_amounts (filter (in_category c) ledger)
  /\ totalText ledger c = lit "$" ++ toFixed 2 total ++ lit " MXN"
  /\ (forall ledger',
        same_but_currency ledger ledger' ->
        totalText ledger' c = totalText ledger c)
  /\ (fixed_range total = true -> fixed2 (toFixed 2 total) = true)
  /\ (forall s m e,
        total = S754_finite s m e -> ge_1e21 m e = false ->
        exists n,
          is_nearest_hundredth m e n
          /\ renders_hundredths (toFixed 2 total) s n)
  /\ (filter (in_category c) ledger = [] ->
      totalText ledger c = lit "$0.00 MXN").
Proof.
  intros total. split; [apply getTotalByCategory_sum|].
  split; [apply totalText_eq|]. split; [|split; [|split]].
  - intros ledger' H. symmetry. now apply totalText_currency_blind.
  - apply toFixed_2_fixed2.
  - intros s m e -> H. exists (nearest_scaled 2 m e).
    split; [apply nearest_scaled_2_nearest|now apply toFixed_2_hundredths].
  - intros H. rewrite totalText_eq, getTotalByCategory_sum, H. reflexivity.
Qed.

(** The three-entry ledger of the specification: 60.00 over all
    categories, mixed currencies notwithstanding, and 0.00 for a category
    without entries. *)
Lemma C8_witness :
  let ledger :=
    [Spending.mk 3 (lit "Auto") (parseFloat (lit "30.00")) (lit "USD") [] [];
     Spending.mk 2 (lit "Personal") (parseFloat (lit "20.00")) (lit "MXN") [] [];
     Spending.mk 1 (lit "General") (parseFloat (lit "10.00")) (lit "MXN") [] []] in
  totalText ledger (lit "All") = lit "$60.00 MXN"
  /\ fixed2 (toFixed 2 (getTotalByCategory ledger (lit "All"))) = true
  /\ (exists n,
        is_nearest_hundredth 8444249301319680 (-47) n
        /\ renders_hundredths (toFixed 2 (getTotalByCategory ledger (lit "All")))
             false n)
  /\ filter (in_category (lit "House")) ledger = []
  /\ totalText ledger (lit "House") = lit "$0.00 MXN".
Proof.
  intros ledger.
  destruct (C8_category_total ledger (lit "All")) as (_ & Htxt & _ & Hfix & Hval & _).
  destruct (C8_category_total ledger (lit "House")) as (_ & _ & _ & _ & _ & Hempty).
  split; [rewrite Htxt; reflexivity|].
  split; [apply Hfix; reflexivity|].
  split; [apply Hval; reflexivity|].
  split; [reflexivity|]. apply Hempty. reflexivity.
Defined.

End DerivedView.

(* ===================================================================== *)
(** * The worked examples of the specification                            *)
(* ===================================================================== *)

Section Examples.
Import JS Num App Spec.

(** One submit of Personal, 50.75, "Coffee and lunch": one row, and the
    draft back at its defaults. *)
Example single_submit :
  let '(alerts, st) :=
    run [InputChange (lit "category") (lit "Personal");
         InputChange (lit "amount") (lit "50.75");
         InputChange (lit "note") (lit "Coffee and lunch");
         ClickAdd 1 (lit "1/2/2026")] initialState in
  alerts = []
  /\ formData st = defaultFormData
  /\ List.map
       (fun e => (Spending.category e,
                  formatAmount (Spending.amount e) (Spending.currency e),
                  Spending.note e))
       (filteredSpendings st)
     = [(lit "Personal", lit "$50.75 MXN", lit "Coffee and lunch")].
Proof. vm_compute. repeat split. Qed.

(** Three submits of 10.00 (General), 20.00 (Personal), 30.00 (Auto);
    the filter on Auto shows one row and 30.00, on All 60.00. *)
Example three_submits_filtered :
  let st :=
    final [InputChange (lit "amount") (lit "10.00"); ClickAdd 1 [];
           InputChange (lit "category") (lit "Personal");
           InputChange (lit "amount") (lit "20.00"); ClickAdd 2 [];
           InputChange (lit "category") (lit "Auto");
           InputChange (lit "amount") (lit "30.00"); ClickAdd 3 []] in
  let auto := snd (step (SetFilterCategory (lit "Auto")) st) in
  List.map Spending.id (filteredSpendings auto) = [3%Z]
  /\ totalText (spendings auto) (filterCategory auto) = lit "$30.00 MXN"
  /\ List.map Spending.id (filteredSpendings st) = [3%Z; 2%Z; 1%Z]
  /\ totalText (spendings st) (filterCategory st) = lit "$60.00 MXN".
Proof. vm_compute. repeat split. Qed.

(** The alert on a zero amount, and the button that swallows the click. *)
Example zero_amount_alert :
  run [InputChange (lit "amount") (lit "0"); AddSpending 1 []] initialState
  = ([ALERT_TEXT],
     mkState [] (lit "All") (FormData.mk (lit "General") (lit "0") (lit "MXN") [] ∅))
  /\ fst (run [InputChange (lit "amount") (lit "0"); ClickAdd 1 []] initialState) = [].
Proof. vm_compute. repeat split. Qed.

End Examples.

(* ===================================================================== *)
(** * Beyond the specification: the currency toggle and the UI events     *)
(* ===================================================================== *)

Section CurrencyAndUI.
Import JS Num App Spec.

Lemma formData_eta (fd : FormData.t) :
  FormData.mk (FormData.category fd) (FormData.amount fd) (FormData.currency fd)
    (FormData.note fd) (FormData.extra fd) = fd.
Proof. now destruct fd. Qed.

Lemma toggleCurrency_eq (fd : FormData.t) :
  toggleCurrency fd =
  FormData.mk (FormData.category fd) (FormData.amount fd)
    (if strict_eq (FormData.currency fd) (lit "MXN") then lit "USD" else lit "MXN")
    (FormData.note fd) (FormData.extra fd).
Proof. unfold toggleCurrency. apply spread_with_currency. Qed.

Lemma toggleCurrency_closed (fd : FormData.t) :
  In (FormData.currency (toggleCurrency fd)) CURRENCIES.
Proof.
  rewrite toggleCurrency_eq. simpl.
  destruct (strict_eq (FormData.currency fd) (lit "MXN")); simpl; auto.
Qed.

(** X1. The toggle changes the currency and nothing else: ['MXN'] becomes
    ['USD'], and every other value, listed or not, becomes ['MXN'], so
    the result is always in [CURRENCIES]. On a draft whose currency is
    one of the two it moves to the other one and is its own inverse. *)
Theorem toggleCurrency_involution (fd : FormData.t) :
  FormData.category (toggleCurrency fd) = FormData.category fd
  /\ FormData.amount (toggleCurrency fd) = FormData.amount fd
  /\ FormData.note (toggleCurrency fd) = FormData.note fd
  /\ FormData.extra (toggleCurrency fd) = FormData.extra fd
  /\ (FormData.currency fd = lit "MXN" ->
      FormData.currency (toggleCurrency fd) = lit "USD")
  /\ (FormData.currency fd <> lit "MXN" ->
      FormData.currency (toggleCurrency fd) = lit "MXN")
  /\ In (FormData.currency (toggleCurrency fd)) CURRENCIES
  /\ (In (FormData.currency fd) CURRENCIES ->
      toggleCurrency (toggleCurrency fd) = fd
      /\ FormData.currency (toggleCurrency fd) <> FormData.currency fd).
Proof.
  rewrite !toggleCurrency_eq. simpl.
  repeat (split; [reflexivity|]).
  split; [intros H; apply strict_eq_true in H; now rewrite H|].
  split; [intros H; apply strict_eq_false in H; now rewrite H|].
  split.
  - destruct (strict_eq (FormData.currency fd) (lit "MXN")); simpl; auto.
  - intros H. destruct fd as [c a u n x]. simpl in *.
    destruct H as [<-|[<-|[]]]; (split; [reflexivity|discriminate]).
Qed.

Lemma toggleCurrency_involution_witness :
  let fd := FormData.mk (lit "Auto") (lit "9.5") (lit "USD") (lit "fuel") ∅ in
  let odd := FormData.mk (lit "Auto") (lit "9.5") (lit "EUR") (lit "fuel") ∅ in
  In (FormData.currency fd) CURRENCIES
  /\ FormData.currency (toggleCurrency fd) = lit "MXN"
  /\ toggleCurrency (toggleCurrency fd) = fd
  /\ FormData.currency odd <> lit "MXN"
  /\ FormData.currency (toggleCurrency odd) = lit "MXN".
Proof.
  intros fd odd.
  assert (H : In (FormData.currency fd) CURRENCIES) by (simpl; auto).
  assert (Ho : FormData.currency odd <> lit "MXN") by discriminate.
  destruct (toggleCurrency_involution fd) as (_ & _ & _ & _ & _ & _ & _ & Hinv).
  destruct (toggleCurrency_involution odd) as (_ & _ & _ & _ & _ & Hmx & _ & _).
  split; [exact H|]. split; [reflexivity|]. split; [exact (proj1 (Hinv H))|].
  split; [exact Ho|exact (Hmx Ho)].
Defined.

Lemma defaultFormData_not_valid : isFormValid defaultFormData = false.
Proof. reflexivity. Qed.

Lemma wellformed_default (led : list Spending.t) (flt : jsstring) :
  (flt = lit "All" \/ In flt CATEGORIES) ->
  Forall wellformed_entry led ->
  wellformed_state (mkState led flt defaultFormData).
Proof.
  intros Hf Hl. unfold wellformed_state. simpl.
  split; [auto|]. split; [auto|].
  split; [split; [apply List.Forall_nil|unfold count_dots; simpl; lia]|].
  split; [lia|]. split; [reflexivity|]. split; [exact Hf|exact Hl].
Qed.

Lemma step_ui_wellformed (ev : Event) (st : State) :
  ui_event ev -> wellformed_state st -> wellformed_state (snd (step ev st)).
Proof.
  intros Hui (Hc & Hu & Ha & Hn & Hx & Hf & Hl).
  destruct ev as [field value| |c|now today|now today]; simpl in Hui |- *.
  - destruct Hui as [[-> Hv]|[->| ->]].
    + rewrite handleInputChange_category. unfold wellformed_state. simpl. auto 10.
    + pose proof (handleInputChange_clean (lit "amount") value _ Ha) as Ha'.
      rewrite handleInputChange_amount in *.
      destruct (2 <=? count_dots (replace_non_numeric value))%nat;
        unfold wellformed_state; simpl in *; auto 10.
    + pose proof (handleInputChange_note_bound (lit "note") value _ Hn) as Hn'.
      rewrite handleInputChange_note in *.
      destruct (List.length value <=? 140)%nat;
        unfold wellformed_state; simpl in *; auto 10.
  - rewrite toggleCurrency_eq. unfold wellformed_state. simpl.
    split; [exact Hc|]. split; [|auto 10].
    destruct (strict_eq (FormData.currency (formData st)) (lit "MXN")); simpl; auto.
  - unfold wellformed_state. simpl. auto 10.
  - contradiction.
  - unfold submitDisabled. destruct (isFormValid (formData st)) eqn:Ev; simpl.
    + rewrite isFormValid_commits by exact Ev. simpl.
      apply wellformed_default; [exact Hf|]. constructor; [|exact Hl].
      unfold wellformed_entry. simpl. split; [exact Hc|]. split.
      * apply gt_zero_iff. unfold isFormValid in Ev.
        now apply andb_true_iff in Ev as [_ Ev].
      * split; [exact Hu|]. etransitivity; [apply trim_length|exact Hn].
    + unfold wellformed_state. auto 10.
Qed.

(** X2. Driven through the rendered page alone (closed selectors, text
    fields, toggle, submit button), the component keeps the data model:
    every entry has a category of [CATEGORIES], a currency of
    [CURRENCIES], an amount above zero and a note of at most 140 code
    units; the draft and the filter stay within their enumerations and
    the draft never grows a stray property. *)
Theorem ui_run_wellformed (evs : list Event) :
  Forall ui_event evs -> wellformed_state (final evs).
Proof.
  intros H. unfold final.
  apply (run_invariant_on ui_event wellformed_state step_ui_wellformed evs _ H).
  apply wellformed_default; [now left|constructor].
Qed.

Lemma ui_run_wellformed_witness :
  let evs :=
    [InputChange (lit "category") (lit "House");
     InputChange (lit "amount") (lit "1,250.5x");
     ToggleCurrency;
     InputChange (lit "note") (lit "  rent  ");
     ClickAdd 5 (lit "1/2/2026");
     SetFilterCategory (lit "House")] in
  Forall ui_event evs
  /\ wellformed_state (final evs)
  /\ List.map (fun e => (Spending.category e, Spending.currency e, Spending.note e))
       (spendings (final evs))
     = [(lit "House", lit "USD", lit "rent")].
Proof.
  intros evs.
  assert (H : Forall ui_event evs).
  { unfold evs. repeat apply List.Forall_cons; try apply List.Forall_nil; simpl.
    - left. split; [reflexivity|auto 10].
    - right; left; reflexivity.
    - exact I.
    - right; right; reflexivity.
    - exact I.
    - right. auto 10. }
  split; [exact H|]. split; [exact (ui_run_wellformed evs H)|].
  vm_compute. reflexivity.
Defined.

(** A commit leaves the default draft behind. *)
Lemma commit_resets_draft (ev : Event) (st : State) :
  spendings (snd (step ev st)) <> spendings st ->
  formData (snd (step ev st)) = defaultFormData.
Proof.
  intros Hch. destruct ev as [field value| |c|n t|n t]; simpl in *;
    try contradiction.
  - destruct (addSpending_cases n t st) as [E|(_ & _ & E)]; rewrite E in *;
      [contradiction|reflexivity].
  - destruct (submitDisabled (formData st)); [contradiction|].
    destruct (addSpending_cases n t st) as [E|(_ & _ & E)]; rewrite E in *;
      [contradiction|reflexivity].
Qed.




Lemma replace_non_numeric_fixed (a : jsstring) :
  Forall (fun c => numeric_unit c = true) a -> replace_non_numeric a = a.
Proof.
  induction 1 as [|c r Hc _ IH]; simpl; [reflexivity|].
  unfold matches_non_numeric. unfold numeric_unit in Hc. now rewrite Hc, IH.
Qed.

(** X4. In every reachable state the handlers accept what the fields show:
    sending the amount field or the note field its own current value
    changes nothing. *)
Theorem resend_field_value (evs : list Event) :
  let fd := formData (final evs) in
  handleInputChange (lit "amount") (FormData.amount fd) fd = fd
  /\ handleInputChange (lit "note") (FormData.note fd) fd = fd.
Proof.
  intros fd.
  assert (Hc : clean_amount (FormData.amount fd)).
  { apply (final_invariant (fun st => clean_amount (FormData.amount (formData st)))).
    - split; [apply List.Forall_nil|unfold count_dots; simpl; lia].
    - apply step_clean_amount. }
  assert (Hn : notes_bounded (final evs)).
  { apply (final_invariant notes_bounded).
    - split; [simpl; lia|constructor].
    - apply step_notes_bounded. }
  destruct Hc as [Hu Hd]. destruct Hn as [Hn _]. fold fd in Hn. split.
  - rewrite handleInputChange_amount, (replace_non_numeric_fixed _ Hu).
    destruct (Nat.leb_spec 2 (count_dots (FormData.amount fd))); [lia|].
    apply formData_eta.
  - rewrite handleInputChange_note.
    destruct (Nat.leb_spec (List.length (FormData.note fd)) 140); [|lia].
    apply formData_eta.
Qed.

Lemma step_filterCategory (ev : Event) (st : State) :
  filterCategory (snd (step ev st)) =
  match ev with SetFilterCategory c => c | _ => filterCategory st end.
Proof.
  destruct ev as [field value| |c|now today|now today]; simpl; try reflexivity.
  - destruct (addSpending_cases now today st) as [E|(_ & _ & E)]; now rewrite E.
  - destruct (submitDisabled (formData st)); [reflexivity|].
    destruct (addSpending_cases now today st) as [E|(_ & _ & E)]; now rewrite E.
Qed.

Lemma run_filterCategory (evs : list Event) (st : State) :
  filterCategory (snd (run evs st)) = last_filter (filterCategory st) evs.
Proof.
  revert st. induction evs as [|ev r IH]; intros st; [reflexivity|].
  simpl run. unfold last_filter. simpl fold_left.
  pose proof (step_filterCategory ev st) as Hs.
  destruct (step ev st) as [a1 st1]. specialize (IH st1).
  destruct (run r st1) as [a2 st2]. simpl in *. rewrite IH, Hs. reflexivity.
Qed.

(** X5. The filter is whatever was chosen last (['All'] before any choice):
    no edit, toggle or commit, accepted or refused, resets it. *)
Theorem filter_is_last_chosen (evs : list Event) :
  filterCategory (final evs) = last_filter (lit "All") evs.
Proof. unfold final. now rewrite run_filterCategory. Qed.

End CurrencyAndUI.

(* ===================================================================== *)
(** * Beyond the specification: what is rendered                          *)
(* ===================================================================== *)

Section Rendering.
Import JS Num App Spec.

Lemma filteredSpendings_filter (st : State) :
  filteredSpendings st = filter (in_category (filterCategory st)) (spendings st).
Proof.
  unfold filteredSpendings. destruct (strict_eq (filterCategory st) (lit "All")) eqn:E.
  - apply strict_eq_true in E. rewrite E. now rewrite filter_in_category_all.
  - apply strict_eq_false in E. now rewrite filter_in_category_other.
Qed.

Lemma filteredSpendings_In (st : State) (e : Spending.t) :
  In e (filteredSpendings st) <->
  In e (spendings st) /\ in_category (filterCategory st) e.
Proof.
  rewrite filteredSpendings_filter, <- !list_elem_of_In, list_elem_of_filter.
  tauto.
Qed.

(** X6. The rows shown are exactly the ledger entries of the chosen category
    (all of them under ['All']), in ledger order, and the total shown
    beside them is the Number sum of the amounts of those very rows. *)
Theorem rows_and_total_agree (st : State) :
  filteredSpendings st `sublist_of` spendings st
  /\ (forall e, In e (filteredSpendings st) <->
                In e (spendings st) /\ in_category (filterCategory st) e)
  /\ (filterCategory st = lit "All" -> filteredSpendings st = spendings st)
  /\ getTotalByCategory (spendings st) (filterCategory st)
     = sum_amounts (filteredSpendings st).
Proof.
  split; [rewrite filteredSpendings_filter; apply sublist_filter|].
  split; [apply filteredSpendings_In|]. split.
  - intros H. unfold filteredSpendings. now rewrite H.
  - now rewrite getTotalByCategory_sum, filteredSpendings_filter.
Qed.

Lemma messages_differ (c : jsstring) : NO_SPENDINGS_YET <> noSpendingsFound c.
Proof. discriminate. Qed.

(** X7. The list area. It shows rows exactly when some entry matches the
    filter, one row per matching entry, keyed by the entry ids. Otherwise
    it shows the first-use message when the ledger is empty, and the
    not-found message, which names the filter, when the ledger has
    entries but none of the filter's category; under ['All'] the
    not-found message cannot appear. *)
Theorem listView_cases (st : State) :
  match listView st with
  | EmptyState m =>
      (forall e, In e (spendings st) -> ~ in_category (filterCategory st) e)
      /\ ((spendings st = [] /\ m = NO_SPENDINGS_YET)
          \/ (spendings st <> [] /\ filterCategory st <> lit "All"
              /\ m = noSpendingsFound (filterCategory st)))
  | Items rows =>
      rows <> []
      /\ rows = List.map renderRow (filteredSpendings st)
      /\ List.map rowKey rows = List.map Spending.id (filteredSpendings st)
      /\ (exists e, In e (spendings st) /\ in_category (filterCategory st) e)
  end.
Proof.
  unfold listView.
  destruct (filteredSpendings st) as [|e0 shown] eqn:Ef; simpl.
  - assert (Hnone : forall e, In e (spendings st) ->
                              ~ in_category (filterCategory st) e).
    { intros e Hin Hc.
      assert (Hf : In e (filteredSpendings st)) by now apply filteredSpendings_In.
      rewrite Ef in Hf. contradiction. }
    split; [exact Hnone|].
    destruct (spendings st) as [|e1 led] eqn:El; simpl; [now left|right].
    split; [discriminate|]. split; [|reflexivity].
    intros Hall. apply (Hnone e1); [now left|now left].
  - split; [discriminate|]. split; [reflexivity|]. split.
    + simpl. f_equal. now rewrite map_map.
    + exists e0. apply filteredSpendings_In. rewrite Ef. now left.
Qed.

Lemma run_spendings_nonempty (evs : list Event) (st : State) :
  spendings st <> [] -> spendings (snd (run evs st)) <> [].
Proof.
  intros H. destruct (run_spendings_suffix evs st) as [new ->].
  intros E. apply app_eq_nil in E as [_ E]. contradiction.
Qed.

(** X8. Once the ledger holds an entry, nothing that can happen afterwards
    hides the filter section with its total, or brings the first-use
    message back. *)
Theorem filter_section_stays (evs : list Event) (st : State) :
  spendings st <> [] ->
  totalDisplay (snd (run evs st)) <> None
  /\ listView (snd (run evs st)) <> EmptyState NO_SPENDINGS_YET.
Proof.
  intros H. pose proof (run_spendings_nonempty evs st H) as H'.
  set (st' := snd (run evs st)) in *. split.
  - unfold totalDisplay. destruct (spendings st'); [contradiction|discriminate].
  - unfold listView. destruct (List.length (filteredSpendings st') =? 0)%nat;
      [|discriminate].
    destruct (spendings st'); [contradiction|]. simpl.
    intros E. apply (messages_differ (filterCategory st')).
    exact (eq_sym (f_equal (fun v => match v with EmptyState m => m | Items _ => [] end) E)).
Qed.

Lemma filter_section_stays_witness :
  let st := snd (run [InputChange (lit "amount") (lit "8"); ClickAdd 1 []]
                   initialState) in
  let evs := [SetFilterCategory (lit "Auto"); InputChange (lit "amount") (lit "0");
              AddSpending 2 []] in
  spendings st <> []
  /\ totalDisplay (snd (run evs st)) = Some (lit "Total (Auto): $0.00 MXN")
  /\ listView (snd (run evs st)) = EmptyState (noSpendingsFound (lit "Auto"))
  /\ listView (snd (run evs st)) <> EmptyState NO_SPENDINGS_YET.
Proof.
  intros st evs.
  assert (H : spendings st <> []) by discriminate.
  split; [exact H|]. split; [vm_compute; reflexivity|].
  split; [vm_compute; reflexivity|].
  exact (proj2 (filter_section_stays evs st H)).
Defined.

Lemma trimStart_nil_iff (s : jsstring) :
  trimStart s = [] <-> Forall (fun c => isWhiteSpace c = true) s.
Proof.
  induction s as [|c r IH]; simpl.
  - split; [constructor|reflexivity].
  - destruct (isWhiteSpace c) eqn:E.
    + rewrite IH. split; [now constructor|now inversion 1].
    + split; [discriminate|]. inversion 1; congruence.
Qed.

Lemma trimStart_head (s : jsstring) :
  match trimStart s with
  | c :: _ => isWhiteSpace c = false
  | [] => True
  end.
Proof.
  induction s as [|c r IH]; simpl; [exact I|].
  destruct (isWhiteSpace c) eqn:E; [exact IH|exact E].
Qed.

Lemma trim_nil_iff (s : jsstring) :
  trim s = [] <-> Forall (fun c => isWhiteSpace c = true) s.
Proof.
  unfold trim, trimEnd. split.
  - intros H. apply trimStart_nil_iff.
    assert (H1 : trimStart (rev (trimStart s)) = []).
    { apply (f_equal (@rev N)) in H. rewrite rev_involutive in H. exact H. }
    apply trimStart_nil_iff in H1.
    pose proof (trimStart_head s) as Hh.
    destruct (trimStart s) as [|c r]; [reflexivity|]. exfalso.
    rewrite List.Forall_forall in H1.
    assert (Hc : isWhiteSpace c = true) by (apply H1, in_rev; rewrite rev_involutive; now left).
    congruence.
  - intros H. apply trimStart_nil_iff in H. now rewrite H.
Qed.

(** X9. A row carries a note line exactly when the draft's note held
    something other than white space: a blank note is committed as the
    empty string and rendered without a note line. *)
Theorem blank_note_has_no_line (now : Z) (today : jsstring) (fd : FormData.t) :
  rowNote (renderRow (newSpending now today fd)) = None
  <-> Forall (fun c => isWhiteSpace c = true) (FormData.note fd).
Proof.
  unfold renderRow, newSpending. simpl. rewrite <- trim_nil_iff.
  destruct (trim (FormData.note fd)); simpl; split; intros H;
    try reflexivity; discriminate H.
Qed.

Lemma step_ids_sorted (ev : Event) (r : list Event) (st : State) :
  StronglySorted Z.lt (submit_times (ev :: r)) ->
  StronglySorted Z.gt (List.map Spending.id (spendings st)) ->
  Forall (fun t => Forall (fun i => (i < t)%Z) (List.map Spending.id (spendings st)))
    (submit_times (ev :: r)) ->
  StronglySorted Z.lt (submit_times r)
  /\ StronglySorted Z.gt (List.map Spending.id (spendings (snd (step ev st))))
  /\ Forall (fun t => Forall (fun i => (i < t)%Z)
                        (List.map Spending.id (spendings (snd (step ev st)))))
       (submit_times r).
Proof.
  intros Hs Hi Hb.
  assert (Hs' : StronglySorted Z.lt (submit_times r)).
  { destruct ev; simpl in Hs; try exact Hs;
      now apply StronglySorted_inv in Hs as [Hs _]. }
  split; [exact Hs'|].
  destruct (step_spendings ev st) as [E|(now & today & Hev & _ & _ & E)]; rewrite E.
  - split; [exact Hi|]. unfold submit_times in Hb. simpl in Hb.
    apply Forall_app in Hb as [_ Hb]. exact Hb.
  - assert (Ht : submit_times (ev :: r) = now :: submit_times r)
      by (destruct Hev as [-> | ->]; reflexivity).
    rewrite Ht in *. simpl.
    apply StronglySorted_inv in Hs as [_ Hlt].
    inversion Hb as [|? ? Hnow Hrest]; subst. split.
    + constructor; [exact Hi|].
      eapply List.Forall_impl; [|exact Hnow]. intros i Hi'. simpl in Hi'. lia.
    + rewrite List.Forall_forall in Hlt, Hrest |- *. intros t Hin.
      constructor; [now apply Hlt|now apply Hrest].
Qed.

Lemma run_ids_sorted (evs : list Event) (st : State) :
  StronglySorted Z.lt (submit_times evs) ->
  StronglySorted Z.gt (List.map Spending.id (spendings st)) ->
  Forall (fun t => Forall (fun i => (i < t)%Z) (List.map Spending.id (spendings st)))
    (submit_times evs) ->
  StronglySorted Z.gt (List.map Spending.id (spendings (snd (run evs st)))).
Proof.
  revert st. induction evs as [|ev r IH]; intros st Hs Hi Hb; [exact Hi|].
  destruct (step_ids_sorted ev r st Hs Hi Hb) as (Hs' & Hi1 & Hb1).
  simpl run. destruct (step ev st) as [a1 st1]. simpl in Hi1, Hb1.
  specialize (IH st1 Hs' Hi1 Hb1). now destruct (run r st1).
Qed.

Lemma decreasing_NoDup (l : list Z) : StronglySorted Z.gt l -> NoDup l.
Proof.
  induction 1 as [|x l Hs IH Hx]; constructor; [|exact IH].
  intros Hin. apply list_elem_of_In in Hin.
  rewrite List.Forall_forall in Hx. specialize (Hx x Hin). lia.
Qed.

(** X10. While the clock readings of successive submits strictly increase,
    the ids in the ledger strictly decrease from the front, so the React
    keys of the rows are pairwise distinct. *)
Theorem keys_distinct_while_clock_ticks (evs : list Event) :
  StronglySorted Z.lt (submit_times evs) ->
  StronglySorted Z.gt (List.map Spending.id (spendings (final evs)))
  /\ NoDup (List.map Spending.id (spendings (final evs))).
Proof.
  intros H.
  assert (Hs : StronglySorted Z.gt (List.map Spending.id (spendings (final evs)))).
  { unfold final. apply run_ids_sorted; [exact H|constructor|].
    apply List.Forall_forall. intros t _. constructor. }
  split; [exact Hs|now apply decreasing_NoDup].
Qed.

Lemma keys_distinct_while_clock_ticks_witness :
  let evs := [InputChange (lit "amount") (lit "1"); ClickAdd 10 [];
              ClickAdd 11 [];
              InputChange (lit "amount") (lit "2"); AddSpending 12 []] in
  StronglySorted Z.lt (submit_times evs)
  /\ List.map Spending.id (spendings (final evs)) = [12%Z; 10%Z]
  /\ NoDup (List.map Spending.id (spendings (final evs))).
Proof.
  intros evs.
  assert (H : StronglySorted Z.lt (submit_times evs)).
  { simpl. repeat constructor. }
  split; [exact H|]. split; [reflexivity|].
  exact (proj2 (keys_distinct_while_clock_ticks evs H)).
Defined.

End Rendering.

(* ===================================================================== *)
(** * Beyond the specification: typing into the controlled fields         *)
(* ===================================================================== *)

Section Typing.
Import JS Num App Spec.

Lemma replace_non_numeric_app (a b : jsstring) :
  replace_non_numeric (a ++ b) = replace_non_numeric a ++ replace_non_numeric b.
Proof. rewrite !replace_non_numeric_filter. apply List.filter_app. Qed.

Lemma count_dots_snoc (a : jsstring) (c : N) :
  count_dots (a ++ [c]) = (count_dots a + if (c =? DOT)%N then 1 else 0)%nat.
Proof.
  rewrite count_dots_app. f_equal. unfold count_dots. simpl.
  destruct (N.eq_dec c DOT) as [->|Hne]; [reflexivity|].
  apply N.eqb_neq in Hne. now rewrite Hne.
Qed.

Lemma amount_after_key (c : N) (fd : FormData.t) :
  clean_amount (FormData.amount fd) ->
  FormData.amount
    (handleInputChange (lit "amount") (FormData.amount fd ++ [c]) fd)
  = FormData.amount fd ++ keep_first_dot (has_dot (FormData.amount fd)) [c].
Proof.
  destruct fd as [cat a u n x]. simpl FormData.amount. intros [Hu Hd].
  rewrite handleInputChange_amount, replace_non_numeric_app.
  rewrite (replace_non_numeric_fixed a Hu).
  assert (Hr : replace_non_numeric [c] = if numeric_unit c then [c] else []).
  { simpl. unfold matches_non_numeric, numeric_unit.
    now destruct (isDigit c || (c =? DOT)). }
  rewrite Hr. unfold has_dot, numeric_unit. cbn [keep_first_dot].
  destruct (N.eqb_spec c DOT) as [->|Hne].
  - rewrite orb_true_r, count_dots_snoc, N.eqb_refl.
    destruct (count_dots a) as [|[|k]]; [| |lia]; simpl; [reflexivity|].
    now rewrite app_nil_r.
  - rewrite orb_false_r. destruct (isDigit c).
    + rewrite count_dots_snoc. apply N.eqb_neq in Hne. rewrite Hne, Nat.add_0_r.
      destruct (Nat.leb_spec 2 (count_dots a)); [lia|reflexivity].
    + rewrite app_nil_r.
      destruct (Nat.leb_spec 2 (count_dots a)); [lia|reflexivity].
Qed.

Lemma keep_first_dot_clean (a : jsstring) (c : N) :
  clean_amount a ->
  clean_amount (a ++ keep_first_dot (has_dot a) [c])
  /\ has_dot (a ++ keep_first_dot (has_dot a) [c]) = has_dot a || (c =? DOT).
Proof.
  intros [Hu Hd]. unfold has_dot. cbn [keep_first_dot].
  destruct (N.eqb_spec c DOT) as [->|Hne].
  - rewrite orb_true_r.
    destruct (count_dots a) as [|[|k]] eqn:Ec; [| |lia]; simpl.
    + split; [|now rewrite count_dots_snoc, Ec].
      split; [|rewrite count_dots_snoc, Ec; simpl; lia].
      apply Forall_app. split; [exact Hu|now repeat constructor].
    + rewrite app_nil_r, Ec. split; [split; [exact Hu|lia]|reflexivity].
  - rewrite orb_false_r. destruct (isDigit c) eqn:Edig.
    + assert (Hcnt : count_dots (a ++ [c]) = count_dots a).
      { rewrite count_dots_snoc. apply N.eqb_neq in Hne. rewrite Hne. lia. }
      rewrite Hcnt. split; [|reflexivity]. split; [|lia].
      apply Forall_app. split; [exact Hu|].
      constructor; [|constructor]. unfold numeric_unit. now rewrite Edig.
    + rewrite app_nil_r. split; [now split|reflexivity].
Qed.

Lemma keep_first_dot_cons (seen : bool) (c : N) (r : jsstring) :
  keep_first_dot seen (c :: r)
  = keep_first_dot seen [c] ++ keep_first_dot (seen || (c =? DOT)) r.
Proof.
  simpl. destruct (c =? DOT); [destruct seen; reflexivity|].
  rewrite orb_false_r. now destruct (isDigit c).
Qed.

Lemma typeKeys_amount (text : jsstring) (fd : FormData.t) :
  clean_amount (FormData.amount fd) ->
  FormData.amount (typeKeys text fd)
  = FormData.amount fd ++ keep_first_dot (has_dot (FormData.amount fd)) text.
Proof.
  revert fd. induction text as [|c r IH]; intros fd Hc.
  - simpl. now rewrite app_nil_r.
  - change (typeKeys (c :: r) fd)
      with (typeKeys r (handleInputChange (lit "amount") (FormData.amount fd ++ [c]) fd)).
    destruct (keep_first_dot_clean _ c Hc) as [Hc' Hh].
    rewrite <- (amount_after_key c fd Hc) in Hc', Hh.
    rewrite (IH _ Hc'), Hh, (amount_after_key c fd Hc).
    rewrite (keep_first_dot_cons _ c r). now rewrite app_assoc.
Qed.

(** X11. Typing any text into the empty amount field of the controlled input,
    key by key, leaves the digits and the first point of the text: every
    other character and every later point is dropped, and the digits
    typed after a dropped point still arrive. *)
Theorem typing_amount_keeps_first_dot (text : jsstring) (fd : FormData.t) :
  FormData.amount fd = [] ->
  FormData.amount (typeKeys text fd) = keep_first_dot false text.
Proof.
  intros H. rewrite typeKeys_amount; rewrite H; [reflexivity|].
  split; [apply List.Forall_nil|unfold count_dots; simpl; lia].
Qed.

Lemma typing_amount_keeps_first_dot_witness :
  FormData.amount defaultFormData = []
  /\ FormData.amount (typeKeys (lit "abc123.45def") defaultFormData) = lit "123.45"
  /\ FormData.amount (typeKeys (lit "1.2.3.4") defaultFormData) = lit "1.234".
Proof.
  split; [reflexivity|]. split.
  - rewrite (typing_amount_keeps_first_dot (lit "abc123.45def") defaultFormData eq_refl).
    reflexivity.
  - rewrite (typing_amount_keeps_first_dot (lit "1.2.3.4") defaultFormData eq_refl).
    reflexivity.
Defined.

Lemma typeNoteKeys_cons (key : jsstring) (keys : list jsstring) (fd : FormData.t) :
  typeNoteKeys (key :: keys) fd =
  typeNoteKeys keys (handleInputChange (lit "note") (FormData.note fd ++ key) fd).
Proof. reflexivity. Qed.

(** Whatever the keys insert, a key is taken whole or refused whole. *)
Lemma typeNoteKeys_kept (keys : list jsstring) (fd : FormData.t) :
  (List.length (FormData.note fd) <= 140)%nat ->
  exists kept,
    kept `sublist_of` keys
    /\ FormData.note (typeNoteKeys keys fd) = FormData.note fd ++ List.concat kept
    /\ (List.length (FormData.note (typeNoteKeys keys fd)) <= 140)%nat.
Proof.
  revert fd. induction keys as [|key r IH]; intros fd Hn.
  - exists []. simpl. rewrite app_nil_r. split; [constructor|now split].
  - rewrite typeNoteKeys_cons.
    destruct (IH (handleInputChange (lit "note") (FormData.note fd ++ key) fd))
      as (kept & Hsub & Hnote & Hlen);
      [now apply handleInputChange_note_bound|].
    rewrite Hnote in *. rewrite handleInputChange_note in *.
    destruct (List.length (FormData.note fd ++ key) <=? 140)%nat; simpl in *.
    + exists (key :: kept). split; [now constructor|].
      simpl. rewrite app_assoc. now split.
    + exists kept. split; [now constructor|now split].
Qed.

(** Keys that insert one code unit each. *)
Lemma typeNoteKeys_units (keys : list jsstring) (fd : FormData.t) :
  Forall (fun key => List.length key = 1%nat) keys ->
  (List.length (FormData.note fd) <= 140)%nat ->
  FormData.note (typeNoteKeys keys fd)
  = firstn 140 (FormData.note fd ++ List.concat keys).
Proof.
  intros Hk. revert fd. induction Hk as [|key r Hkey _ IH]; intros fd Hn.
  - simpl. rewrite app_nil_r. symmetry. now apply firstn_all2.
  - rewrite typeNoteKeys_cons.
    rewrite IH by now apply handleInputChange_note_bound.
    rewrite handleInputChange_note, length_app, Hkey. simpl List.concat.
    destruct (Nat.leb_spec (List.length (FormData.note fd) + 1) 140) as [Hle|Hgt]; simpl.
    + now rewrite <- app_assoc.
    + assert (Hl : List.length (FormData.note fd) = 140%nat) by lia.
      rewrite !firstn_app, Hl, Nat.sub_diag. reflexivity.
Qed.

(** X12. Typing into the empty note field, key by key. Whatever the keys
    insert, each key is taken whole or refused whole, so the note is the
    text of some of the keys, in order, and never exceeds 140 code units.
    When every key inserts one code unit (text of the Basic Multilingual
    Plane) the note is the first 140 code units of the text: every key
    after the 140th is refused, the counter reads the smaller of the text
    length and 140, and it carries the warning class once more than 130
    units were typed. *)
Theorem typing_note_truncates (keys : list jsstring) (fd : FormData.t) :
  FormData.note fd = [] ->
  (exists kept,
     kept `sublist_of` keys
     /\ FormData.note (typeNoteKeys keys fd) = List.concat kept
     /\ (List.length (FormData.note (typeNoteKeys keys fd)) <= 140)%nat)
  /\ (Forall (fun key => List.length key = 1%nat) keys ->
      FormData.note (typeNoteKeys keys fd) = firstn 140 (List.concat keys)
      /\ charCount (typeNoteKeys keys fd)
         = decimal (N.of_nat (Nat.min 140 (List.length (List.concat keys))))
           ++ lit "/140"
      /\ (charCountWarning (typeNoteKeys keys fd) = true
          <-> (130 < List.length (List.concat keys))%nat)).
Proof.
  intros H. split.
  - destruct (typeNoteKeys_kept keys fd) as (kept & Hs & Hn & Hl);
      [rewrite H; simpl; lia|].
    exists kept. rewrite H in Hn. now repeat split.
  - intros Hk.
    assert (E : FormData.note (typeNoteKeys keys fd) = firstn 140 (List.concat keys)).
    { rewrite typeNoteKeys_units by (try exact Hk; rewrite H; simpl; lia).
      now rewrite H. }
    unfold charCount, charCountWarning. rewrite E, length_firstn.
    split; [reflexivity|]. split; [reflexivity|].
    rewrite Nat.ltb_lt. lia.
Qed.

Lemma typing_note_truncates_witness :
  let keys := repeat [97] 150 in
  let astral := repeat [97] 139 ++ [[55357; 56832]; [98]] in
  FormData.note defaultFormData = []
  /\ Forall (fun key => List.length key = 1%nat) keys
  /\ FormData.note (typeNoteKeys keys defaultFormData) = repeat 97 140
  /\ charCount (typeNoteKeys keys defaultFormData) = lit "140/140"
  /\ FormData.note (typeNoteKeys astral defaultFormData) = repeat 97 139 ++ [98].
Proof.
  intros keys astral.
  assert (Hk : Forall (fun key => List.length key = 1%nat) keys).
  { unfold keys. apply List.Forall_forall. intros key Hin.
    apply repeat_spec in Hin. now subst key. }
  destruct (typing_note_truncates keys defaultFormData eq_refl) as (_ & Hunits).
  destruct (Hunits Hk) as (Hn & Hc & _).
  split; [reflexivity|]. split; [exact Hk|]. split; [|split].
  - rewrite Hn. reflexivity.
  - rewrite Hc. reflexivity.
  - reflexivity.
Defined.

End Typing.

(* ===================================================================== *)
(** * Beyond the specification: whole-number amounts are exact            *)
(* ===================================================================== *)

Section WholeNumbers.
Import JS Num App Spec.

Lemma digits2_size (p : positive) : digits2_pos p = Pos.size p.
Proof. induction p; simpl; congruence. Qed.

Lemma digits2_log2 (p : positive) :
  Zpos (digits2_pos p) = Z.succ (Z.log2 (Zpos p)).
Proof.
  rewrite digits2_size. destruct p as [p|p|]; simpl; try reflexivity;
    now rewrite Pos2Z.inj_succ.
Qed.

(** [digits2_pos p = d] says [2^(d-1) <= p < 2^d]. *)
Lemma digits2_bounds (p : positive) :
  (2 ^ (Zpos (digits2_pos p) - 1) <= Zpos p < 2 ^ Zpos (digits2_pos p))%Z.
Proof.
  rewrite digits2_log2. replace (Z.succ (Z.log2 (Z.pos p)) - 1)%Z with (Z.log2 (Z.pos p)) by lia.
  apply Z.log2_spec. lia.
Qed.

Lemma digits2_unique (p : positive) (d : Z) :
  (2 ^ (d - 1) <= Zpos p < 2 ^ d)%Z -> Zpos (digits2_pos p) = d.
Proof.
  intros H. rewrite digits2_log2.
  assert (0 < d)%Z.
  { destruct (Z.ltb_spec 0 d) as [|Hd]; [assumption|].
    destruct H as [_ H]. 
    assert (2 ^ d <= 1)%Z.
    { destruct (Z.eqb_spec d 0) as [->|]; [simpl; lia|].
      rewrite Z.pow_neg_r by lia. lia. }
    lia. }
  assert (Z.log2 (Z.pos p) = d - 1)%Z; [|lia].
  apply Z.log2_unique; [lia|]. replace (Z.succ (d - 1)) with d by lia. exact H.
Qed.

Lemma digits2_shift (p q : positive) (t : Z) :
  (0 <= t)%Z -> Zpos q = (Zpos p * 2 ^ t)%Z ->
  Zpos (digits2_pos q) = (Zpos (digits2_pos p) + t)%Z.
Proof.
  intros Ht Hq. apply digits2_unique. rewrite Hq.
  pose proof (digits2_bounds p) as [Hlo Hhi].
  assert (0 < 2 ^ t)%Z by (apply Z.pow_pos_nonneg; lia).
  replace (Z.pos (digits2_pos p) + t - 1)%Z with ((Z.pos (digits2_pos p) - 1) + t)%Z by lia.
  rewrite !Z.pow_add_r by lia. split; nia.
Qed.

Lemma iter_xO_mul (p k : positive) :
  Zpos (Pos.iter xO p k) = (Zpos p * 2 ^ Zpos k)%Z.
Proof.
  induction k as [|k IH] using Pos.peano_ind.
  - simpl. lia.
  - rewrite Pos.iter_succ, Pos2Z.inj_succ, Z.pow_succ_r by lia.
    rewrite Pos2Z.inj_xO, IH. lia.
Qed.

Lemma shr_1_even (z : Z) :
  shr_1 (Build_shr_record (2 * z) false false) = Build_shr_record z false false.
Proof. destruct z; reflexivity. Qed.

Lemma iter_shr_1_exact (k : positive) (q : Z) :
  SpecFloat.iter_pos shr_1 k (Build_shr_record (q * 2 ^ Zpos k) false false)
  = Build_shr_record q false false.
Proof.
  revert q. induction k as [k IH|k IH|]; intros q; cbn [SpecFloat.iter_pos].
  - change (Z.pos k~1) with (2 * Z.pos k + 1)%Z.
    replace (q * 2 ^ (2 * Z.pos k + 1))%Z with (2 * ((q * 2 ^ Z.pos k) * 2 ^ Z.pos k))%Z.
    + now rewrite shr_1_even, !IH.
    + rewrite Z.pow_add_r, Z.pow_1_r by lia.
      replace (2 * Z.pos k)%Z with (Z.pos k + Z.pos k)%Z by lia.
      rewrite Z.pow_add_r by lia. lia.
  - change (Z.pos k~0) with (2 * Z.pos k)%Z.
    replace (q * 2 ^ (2 * Z.pos k))%Z with ((q * 2 ^ Z.pos k) * 2 ^ Z.pos k)%Z.
    + now rewrite !IH.
    + replace (2 * Z.pos k)%Z with (Z.pos k + Z.pos k)%Z by lia.
      rewrite Z.pow_add_r by lia. lia.
  - replace (q * 2 ^ 1)%Z with (2 * q)%Z by lia. apply shr_1_even.
Qed.

(** The mantissa and exponent of [whole n]. *)
Lemma whole_eq (n : positive) :
  (Zpos n < 2 ^ 53)%Z ->
  exists m,
    whole n = S754_finite false m (Zpos (digits2_pos n) - 53)
    /\ Zpos m = (Zpos n * 2 ^ (53 - Zpos (digits2_pos n)))%Z.
Proof.
  intros Hn. unfold whole, shl_align, fexp, emin, prec, emax.
  pose proof (digits2_bounds n) as [Hlo _].
  set (d := Zpos (digits2_pos n)) in *.
  assert (Hd : (1 <= d <= 53)%Z).
  { split; [unfold d; lia|].
    destruct (Z.leb_spec d 53) as [|Hgt]; [assumption|].
    assert (2 ^ 53 <= 2 ^ (d - 1))%Z by (apply Z.pow_le_mono_r; lia). lia. }
  replace (Z.max (d - 53) (3 - 1024 - 53)) with (d - 53)%Z by lia.
  destruct (d - 53 - 0)%Z as [|k|k] eqn:Ek; try lia.
  - exists n. replace (d - 53)%Z with 0%Z by lia. split; [reflexivity|].
    replace (53 - d)%Z with 0%Z by lia. lia.
  - exists (Pos.iter xO n k). split; [reflexivity|].
    rewrite iter_xO_mul. f_equal. f_equal. lia.
Qed.

(** Rounding an exact representation of a whole number below 2^53 gives
    the whole number. *)
Lemma binary_round_aux_whole (M n : positive) (e : Z) :
  (e <= 0)%Z ->
  Zpos M = (Zpos n * 2 ^ (- e))%Z ->
  (Zpos n < 2 ^ 53)%Z ->
  (e <= Zpos (digits2_pos n) - 53)%Z ->
  binary_round_aux prec emax false (Zpos M) e loc_Exact = whole n.
Proof.
  intros He HM Hn Hk.
  destruct (whole_eq n Hn) as (m & -> & Hm).
  pose proof (digits2_bounds n) as [Hlo _].
  set (d := Zpos (digits2_pos n)) in *.
  assert (Hd : (1 <= d <= 53)%Z).
  { split; [unfold d; lia|].
    destruct (Z.leb_spec d 53) as [|Hgt]; [assumption|].
    assert (2 ^ 53 <= 2 ^ (d - 1))%Z by (apply Z.pow_le_mono_r; lia). lia. }
  assert (HdM : Zpos (digits2_pos M) = (d - e)%Z).
  { rewrite (digits2_shift n M (- e)) by (lia || exact HM). fold d. lia. }
  assert (Hdm : Zpos (digits2_pos m) = 53%Z).
  { rewrite (digits2_shift n m (53 - d)) by (lia || exact Hm). fold d. lia. }
  assert (Hfirst : shr_fexp prec emax (Zpos M) e loc_Exact
                   = (Build_shr_record (Zpos m) false false, (d - 53)%Z)).
  { unfold shr_fexp, shr, fexp, emin, prec, emax. simpl Zdigits2. rewrite HdM.
    replace (Z.max (d - e + e - 53) (3 - 1024 - 53) - e)%Z with (d - 53 - e)%Z by lia.
    destruct (d - 53 - e)%Z as [|k|k] eqn:Ek; try lia.
    - simpl. f_equal; [|lia]. f_equal.
      rewrite HM, Hm. f_equal. f_equal. lia.
    - f_equal; [|lia]. simpl shr_record_of_loc.
      replace (Zpos M) with (Zpos m * 2 ^ Zpos k)%Z; [apply iter_shr_1_exact|].
      rewrite HM, Hm, <- Z.mul_assoc, <- Z.pow_add_r by lia.
      f_equal. f_equal. lia. }
  assert (Hsecond : shr_fexp prec emax (Zpos m) (d - 53) loc_Exact
                    = (Build_shr_record (Zpos m) false false, (d - 53)%Z)).
  { unfold shr_fexp, shr, fexp, emin, prec, emax. simpl Zdigits2. rewrite Hdm.
    replace (Z.max (53 + (d - 53) - 53) (3 - 1024 - 53) - (d - 53))%Z with 0%Z by lia.
    reflexivity. }
  unfold binary_round_aux. rewrite Hfirst. simpl shr_m. simpl loc_of_shr_record.
  simpl round_nearest_even. rewrite Hsecond. simpl shr_m.
  unfold prec, emax.
  destruct (Z.leb_spec (d - 53) (1024 - 53)); [reflexivity|lia].
Qed.

Lemma binary_round_whole (M n : positive) (e : Z) :
  (e <= 0)%Z ->
  Zpos M = (Zpos n * 2 ^ (- e))%Z ->
  (Zpos n < 2 ^ 53)%Z ->
  binary_round prec emax false M e = whole n.
Proof.
  intros He HM Hn. unfold binary_round.
  pose proof (digits2_bounds n) as [Hlo _].
  set (d := Zpos (digits2_pos n)) in *.
  assert (Hd : (1 <= d <= 53)%Z).
  { split; [unfold d; lia|].
    destruct (Z.leb_spec d 53) as [|Hgt]; [assumption|].
    assert (2 ^ 53 <= 2 ^ (d - 1))%Z by (apply Z.pow_le_mono_r; lia). lia. }
  assert (HdM : Zpos (digits2_pos M) = (d - e)%Z).
  { rewrite (digits2_shift n M (- e)) by (lia || exact HM). fold d. lia. }
  unfold shl_align, fexp, emin, prec, emax. rewrite HdM.
  replace (Z.max (d - e + e - 53) (3 - 1024 - 53) - e)%Z with (d - 53 - e)%Z by lia.
  destruct (d - 53 - e)%Z as [|k|k] eqn:Ek.
  - apply binary_round_aux_whole; try assumption. fold d. lia.
  - apply binary_round_aux_whole; try assumption. fold d. lia.
  - replace (Z.max (d - e + e - 53) (3 - 1024 - 53)) with (d - 53)%Z by lia.
    apply binary_round_aux_whole; try assumption; fold d; try lia.
    rewrite iter_xO_mul, HM, <- Z.mul_assoc, <- Z.pow_add_r by lia.
    f_equal. f_equal. lia.
Qed.


Lemma digits2_le (p : positive) (D : Z) :
  (Zpos p < 2 ^ D)%Z -> (Zpos (digits2_pos p) <= D)%Z.
Proof.
  intros H. pose proof (digits2_bounds p) as [Hlo _].
  destruct (Z.leb_spec (Zpos (digits2_pos p)) D) as [|Hgt]; [assumption|].
  assert (0 <= D)%Z.
  { destruct (Z.leb_spec 0 D); [assumption|]. rewrite Z.pow_neg_r in H by lia. lia. }
  assert (2 ^ D <= 2 ^ (Zpos (digits2_pos p) - 1))%Z by (apply Z.pow_le_mono_r; lia).
  lia.
Qed.

Lemma div_eucl_exact (a b : Z) :
  (0 < b)%Z -> Z.div_eucl (a * b) b = (a, 0%Z).
Proof.
  intros Hb. pose proof (Z.div_mul a b ltac:(lia)) as Hq.
  pose proof (Z.mod_mul a b ltac:(lia)) as Hr.
  unfold Z.div, Z.modulo in Hq, Hr.
  destruct (Z.div_eucl (a * b) b) as [q r]. simpl in *. now subst.
Qed.

Lemma new_location_zero (nb : Z) : new_location nb 0 = loc_Exact.
Proof. unfold new_location. destruct (Z.even nb); reflexivity. Qed.

(** A decimal literal that writes a whole number below 2^53 with [k]
    zeros after the point converts to that whole number exactly. *)
Lemma number_of_decimal_whole (P n : positive) (k : Z) :
  (0 <= k)%Z ->
  Zpos P = (Zpos n * 10 ^ k)%Z ->
  (Zpos n < 2 ^ 53)%Z ->
  number_of_decimal false (Npos P) (- k) = whole n.
Proof.
  intros Hk HP Hn. unfold number_of_decimal.
  destruct (Z.leb_spec 0 (- k)) as [H0|H0].
  - assert (k = 0)%Z by lia. subst k. simpl in HP |- *.
    replace (Z.to_pos (Z.pos P * 1)) with P by lia.
    apply binary_round_whole; [lia| |exact Hn]. simpl. lia.
  - rewrite Z.opp_involutive.
    assert (Hten : (0 < 10 ^ k)%Z) by (apply Z.pow_pos_nonneg; lia).
    unfold SFdiv_core_binary.
    set (e' := Z.min (fexp prec emax (Zdigits2 (Z.pos P) + 0 - (Zdigits2 (10 ^ k) + 0)))
                 (0 - 0)).
    assert (He' : (e' <= 0)%Z) by (unfold e'; lia).
    assert (Hm' : match (0 - 0 - e')%Z with
                  | Z0 => Z.pos P
                  | Zpos _ => Z.shiftl (Z.pos P) (0 - 0 - e')
                  | Zneg _ => 0%Z
                  end = (Zpos n * 2 ^ (- e') * 10 ^ k)%Z).
    { destruct (0 - 0 - e')%Z as [|s|s] eqn:Es; try lia.
      - replace (- e')%Z with 0%Z by lia. rewrite HP. simpl. lia.
      - rewrite Z.shiftl_mul_pow2 by lia. rewrite HP.
        replace (- e')%Z with (Z.pos s) by lia. lia. }
    rewrite Hm', div_eucl_exact by exact Hten.
    rewrite new_location_zero.
    assert (Hpos : (0 < Zpos n * 2 ^ (- e'))%Z)
      by (apply Z.mul_pos_pos; [lia|apply Z.pow_pos_nonneg; lia]).
    destruct (Z.pos n * 2 ^ (- e'))%Z as [|M|M] eqn:EM; try lia.
    apply binary_round_aux_whole; [exact He'|now rewrite EM|exact Hn|].
    (* the exponent chosen by the division is low enough *)
    destruct (10 ^ k)%Z as [|T|T] eqn:ET; try lia.
    simpl Zdigits2 in e'.
    assert (Hdig : (Zpos (digits2_pos P) <= Zpos (digits2_pos n) + Zpos (digits2_pos T))%Z).
    { apply digits2_le. rewrite HP, Z.pow_add_r by lia.
      pose proof (digits2_bounds n) as [_ Hn2].
      pose proof (digits2_bounds T) as [_ HT2]. nia. }
    unfold e', fexp, emin, prec, emax.
    pose proof (digits2_bounds n) as [_ _].
    assert (1 <= Zpos (digits2_pos n))%Z by lia. lia.
Qed.

Lemma digits_value_zeros_after (ds : jsstring) (k : nat) :
  digits_value (ds ++ repeat ZERO k) = digits_value ds * 10 ^ N.of_nat k.
Proof.
  unfold digits_value. rewrite fold_left_app.
  generalize (fold_left (fun acc c => 10 * acc + (c - 48)) ds 0). intros v.
  revert v. induction k as [|k IH]; intros v.
  - simpl. lia.
  - simpl repeat. simpl fold_left. rewrite IH.
    rewrite Nat2N.inj_succ, N.pow_succ_r'. unfold ZERO. lia.
Qed.

Lemma parseFloat_digit_head (c : N) (r : jsstring) :
  isDigit c = true ->
  parseFloat (c :: r) =
  match scan_unsigned (c :: r) with
  | None => NaN
  | Some LitInfinity => S754_infinity false
  | Some (LitDecimal n e) => number_of_decimal false n e
  end.
Proof.
  intros Hc.
  assert (Hn : numeric_unit c = true) by (unfold numeric_unit; now rewrite Hc).
  apply numeric_unit_plain in Hn as (Hw & Hm & Hp & _).
  unfold parseFloat. simpl trimStart. rewrite Hw, Hm, Hp. reflexivity.
Qed.

(** How the scanner reads digits followed by nothing, or by a point and
    zeros. *)
Lemma scan_unsigned_whole (ip : jsstring) :
  ip <> [] ->
  Forall (fun c => isDigit c = true) ip ->
  scan_unsigned ip = Some (LitDecimal (digits_value ip) 0)
  /\ forall k,
       scan_unsigned (ip ++ DOT :: repeat ZERO k)
       = Some (LitDecimal (digits_value ip * 10 ^ N.of_nat k) (- Z.of_nat k)).
Proof.
  intros Hne Hd.
  assert (Hinf : forall t, starts_with (lit "Infinity") (ip ++ t) = false).
  { intros t. destruct ip as [|c r]; [contradiction|].
    inversion Hd as [|? ? Hc _]; subst.
    assert (Hn : numeric_unit c = true) by (unfold numeric_unit; now rewrite Hc).
    apply numeric_unit_plain in Hn as (_ & _ & _ & Hi).
    change (starts_with (lit "Infinity") ((c :: r) ++ t))
      with ((73 =? c) && starts_with (lit "nfinity") (r ++ t)).
    now rewrite Hi. }
  split.
  - unfold scan_unsigned. rewrite <- (app_nil_r ip) at 1. rewrite Hinf.
    rewrite (span_digits_all ip Hd). destruct ip; [contradiction|reflexivity].
  - intros k. unfold scan_unsigned. rewrite Hinf.
    rewrite span_digits_app by (auto; reflexivity). rewrite N.eqb_refl.
    rewrite span_digits_all by (apply List.Forall_forall; intros c Hc;
                                apply repeat_spec in Hc; now subst c).
    rewrite digits_value_zeros_after, repeat_length. simpl scan_exponent.
    destruct ip; [contradiction|]. reflexivity.
Qed.

Lemma whole_finite (n : positive) :
  (Zpos n < 2 ^ 53)%Z -> positive_number (whole n).
Proof. intros H. destruct (whole_eq n H) as (m & -> & _). exact I. Qed.

Lemma shl_align_fst (m : positive) (e ez : Z) :
  (ez <= e)%Z -> Zpos (fst (shl_align m e ez)) = (Zpos m * 2 ^ (e - ez))%Z.
Proof.
  intros H. unfold shl_align. destruct (ez - e)%Z as [|k|k] eqn:Ek; try lia; simpl.
  - replace (e - ez)%Z with 0%Z by lia. lia.
  - rewrite iter_xO_mul. f_equal. f_equal. lia.
Qed.

(** Adding two whole numbers whose sum stays below 2^53 is exact. *)
Lemma add_whole (a b : positive) :
  (Zpos a + Zpos b < 2 ^ 53)%Z ->
  add (whole a) (whole b) = whole (a + b).
Proof.
  intros H.
  destruct (whole_eq a ltac:(lia)) as (ma & -> & Hma).
  destruct (whole_eq b ltac:(lia)) as (mb & -> & Hmb).
  pose proof (digits2_le a 53 ltac:(lia)) as Hda.
  pose proof (digits2_le b 53 ltac:(lia)) as Hdb.
  set (ea := (Zpos (digits2_pos a) - 53)%Z) in *.
  set (eb := (Zpos (digits2_pos b) - 53)%Z) in *.
  unfold add, SFadd. simpl cond_Zopp.
  set (ez := Z.min ea eb).
  pose proof (shl_align_fst ma ea ez ltac:(unfold ez; lia)) as Ha.
  pose proof (shl_align_fst mb eb ez ltac:(unfold ez; lia)) as Hb.
  destruct (shl_align ma ea ez) as [ma' ea']. destruct (shl_align mb eb ez) as [mb' eb'].
  simpl fst in *. simpl Z.add. unfold binary_normalize.
  apply binary_round_whole; [unfold ez, ea, eb; lia| |lia].
  rewrite Pos2Z.inj_add, Ha, Hb, Hma, Hmb.
  rewrite <- !Z.mul_assoc, <- !Z.pow_add_r by (unfold ez, ea, eb; lia).
  replace (53 - Z.pos (digits2_pos a) + (ea - ez))%Z with (- ez)%Z by (unfold ea; lia).
  replace (53 - Z.pos (digits2_pos b) + (eb - ez))%Z with (- ez)%Z by (unfold eb; lia).
  lia.
Qed.

Lemma total_of_nonneg (ns : list positive) : (0 <= total_of ns)%Z.
Proof. induction ns; simpl; lia. Qed.

Lemma fold_add_whole (ns : list positive) (acc : positive) :
  (Zpos acc + total_of ns < 2 ^ 53)%Z ->
  fold_left add (List.map whole ns) (whole acc)
  = whole (Z.to_pos (Zpos acc + total_of ns)).
Proof.
  revert acc. induction ns as [|n r IH]; intros acc H; simpl in *.
  - reflexivity.
  - pose proof (total_of_nonneg r).
    rewrite add_whole by lia. rewrite IH by lia. f_equal. lia.
Qed.

Lemma sum_whole (ns : list positive) :
  ns <> [] ->
  (total_of ns < 2 ^ 53)%Z ->
  fold_left add (List.map whole ns) zero = whole (Z.to_pos (total_of ns)).
Proof.
  intros Hne H. destruct ns as [|n r]; [contradiction|].
  change (total_of (n :: r)) with (Zpos n + total_of r)%Z in *.
  pose proof (total_of_nonneg r).
  change (fold_left add (List.map whole (n :: r)) zero)
    with (fold_left add (List.map whole r) (add zero (whole n))).
  assert (E : add zero (whole n) = whole n).
  { destruct (whole_eq n ltac:(lia)) as (m & -> & _). reflexivity. }
  rewrite E. apply fold_add_whole. lia.
Qed.

Lemma units_whole (n : positive) :
  (Zpos n < 2 ^ 53)%Z -> units (whole n) = Some (Zpos n * 2 ^ 1074)%Z.
Proof.
  intros H. destruct (whole_eq n H) as (m & -> & Hm).
  pose proof (digits2_le n 53 H). simpl. f_equal.
  rewrite Hm. replace (1 * (Z.pos n * 2 ^ (53 - Z.pos (digits2_pos n))))%Z
    with (Z.pos n * 2 ^ (53 - Z.pos (digits2_pos n)))%Z by lia.
  rewrite <- Z.mul_assoc, <- Z.pow_add_r by lia. f_equal. f_equal. lia.
Qed.

(** [toFixed(2)] of a whole number writes it with two zeros after the
    point. *)
Lemma toFixed_2_whole (n : positive) :
  (Zpos n < 2 ^ 53)%Z ->
  renders_hundredths (toFixed 2 (whole n)) false (100 * Npos n).
Proof.
  intros H. destruct (whole_eq n H) as (m & -> & Hm).
  pose proof (digits2_le n 53 H) as Hd.
  set (e := (Zpos (digits2_pos n) - 53)%Z) in *.
  assert (HP : (0 < 2 ^ (- e))%Z) by (apply Z.pow_pos_nonneg; unfold e; lia).
  replace (53 - Z.pos (digits2_pos n))%Z with (- e)%Z in Hm by (unfold e; lia).
  assert (Hsmall : ge_1e21 m e = false).
  { unfold ge_1e21. destruct (Z.leb_spec 0 e) as [H0|H0].
    - assert (e = 0)%Z by (unfold e in *; lia).
      apply Z.leb_gt. replace e with 0%Z in * by lia. simpl in Hm |- *. lia.
    - apply Z.leb_gt. rewrite Hm. 
      assert (2 ^ 53 < 10 ^ 21)%Z by reflexivity. nia. }
  assert (Hn : nearest_scaled 2 m e = 100 * Npos n).
  { unfold nearest_scaled. change (10 ^ Z.of_nat 2)%Z with 100%Z.
    destruct (Z.leb_spec 0 e) as [H0|H0].
    - assert (e = 0)%Z by (unfold e in *; lia).
      replace e with 0%Z in * by lia. simpl in Hm. lia.
    - replace (1 - e)%Z with (Z.succ (- e)) by lia.
      rewrite Z.pow_succ_r by lia. rewrite Hm.
      replace (2 * (Z.pos n * 2 ^ (- e) * 100) + 2 ^ (- e))%Z
        with (100 * Z.pos n * (2 * 2 ^ (- e)) + 2 ^ (- e))%Z by lia.
      rewrite Z.div_add_l by lia. rewrite Z.div_small by lia. lia. }
  rewrite <- Hn. now apply toFixed_2_hundredths.
Qed.

(** A fixed-notation string that reads a multiple of 100 hundredths is
    the whole part followed by [.00]. *)
Lemma renders_whole (s : jsstring) (v : N) :
  renders_hundredths s false (100 * v) ->
  exists shown,
    s = shown ++ lit ".00"
    /\ Forall (fun c => isDigit c = true) shown
    /\ digits_value shown = v.
Proof.
  intros (ip & f1 & f2 & -> & _ & Hd & Hv).
  apply Forall_app in Hd as [Hip Hf].
  inversion Hf as [|? ? H1 Hf']; subst. inversion Hf' as [|? ? H2 _]; subst.
  unfold digits_value in Hv. rewrite fold_left_app in Hv. simpl in Hv.
  change (fold_left (fun acc c => 10 * acc + (c - 48)) ip 0)
    with (digits_value ip) in Hv.
  unfold isDigit in H1, H2.
  apply andb_true_iff in H1 as [H1a H1b]. apply andb_true_iff in H2 as [H2a H2b].
  apply N.leb_le in H1a, H1b, H2a, H2b.
  assert (f1 = 48 /\ f2 = 48 /\ digits_value ip = v) as (-> & -> & E) by lia.
  exists ip. split; [reflexivity|]. now split.
Qed.

(** X15. A string of digits, then possibly a point and zeros, that writes a
    whole number below 2^53 is parsed to exactly that number: the stored
    amount has the exact value, and its row shows the number with two
    zeros after the point. *)
Theorem whole_amount_stored_exactly (ip : jsstring) (k : nat) (n : positive) :
  Forall (fun c => isDigit c = true) ip ->
  digits_value ip = Npos n ->
  (Zpos n < 2 ^ 53)%Z ->
  parseFloat ip = whole n
  /\ parseFloat (ip ++ DOT :: repeat ZERO k) = whole n
  /\ units (whole n) = Some (Zpos n * 2 ^ 1074)%Z
  /\ exists shown,
       toFixed 2 (whole n) = shown ++ lit ".00"
       /\ Forall (fun c => isDigit c = true) shown
       /\ digits_value shown = Npos n.
Proof.
  intros Hd Hv Hn.
  assert (Hne : ip <> []) by (intros ->; discriminate Hv).
  destruct (scan_unsigned_whole ip Hne Hd) as [Hs0 Hsk].
  destruct ip as [|c r] eqn:Eip; [contradiction|].
  assert (Hc : isDigit c = true) by (inversion Hd; assumption).
  split; [|split; [|split]].
  - rewrite parseFloat_digit_head, Hs0, Hv by exact Hc.
    apply (number_of_decimal_whole n n 0); [lia|simpl; lia|exact Hn].
  - change ((c :: r) ++ DOT :: repeat ZERO k)
      with (c :: (r ++ DOT :: repeat ZERO k)).
    rewrite parseFloat_digit_head by exact Hc.
    change (c :: (r ++ DOT :: repeat ZERO k))
      with ((c :: r) ++ DOT :: repeat ZERO k).
    rewrite (Hsk k), Hv.
    assert (Hpow : (0 < 10 ^ Z.of_nat k)%Z) by (apply Z.pow_pos_nonneg; lia).
    destruct (N.pos n * 10 ^ N.of_nat k) as [|P] eqn:EP; [lia|].
    apply (number_of_decimal_whole P n (Z.of_nat k)); [lia| |exact Hn].
    assert (HZ : Z.of_N (N.pos P) = Z.of_N (N.pos n * 10 ^ N.of_nat k)) by now rewrite EP.
    rewrite N2Z.inj_mul, N2Z.inj_pow, nat_N_Z in HZ. exact HZ.
  - now apply units_whole.
  - apply renders_whole. now apply toFixed_2_whole.
Qed.

Lemma whole_amount_stored_exactly_witness :
  Forall (fun c => isDigit c = true) (lit "30")
  /\ digits_value (lit "30") = 30
  /\ parseFloat (lit "30.00") = whole 30
  /\ toFixed 2 (parseFloat (lit "30.00")) = lit "30.00".
Proof.
  assert (Hd : Forall (fun c => isDigit c = true) (lit "30"))
    by (repeat constructor).
  split; [exact Hd|]. split; [reflexivity|].
  destruct (whole_amount_stored_exactly (lit "30") 2 30 Hd eq_refl eq_refl)
    as (_ & Hp & _ & _).
  split; [exact Hp|]. reflexivity.
Defined.

(** X16. When the entries of the requested category hold whole numbers whose
    sum stays below 2^53, the category total is exactly their
    arithmetic sum, and it is displayed as that sum with two zeros after
    the point. *)
Theorem whole_totals_exact
  (ledger : list Spending.t) (c : jsstring) (ns : list positive) :
  whole_amounts (filter (in_category c) ledger) ns ->
  ns <> [] ->
  (total_of ns < 2 ^ 53)%Z ->
  let total := getTotalByCategory ledger c in
  total = whole (Z.to_pos (total_of ns))
  /\ units total = Some (total_of ns * 2 ^ 1074)%Z
  /\ exists shown,
       totalText ledger c = lit "$" ++ shown ++ lit ".00 MXN"
       /\ Forall (fun c => isDigit c = true) shown
       /\ Z.of_N (digits_value shown) = total_of ns.
Proof.
  intros Hw Hne Hlt total.
  assert (Hpos : (0 < total_of ns)%Z).
  { destruct ns as [|n r]; [contradiction|]. simpl.
    pose proof (total_of_nonneg r). lia. }
  assert (E : total = whole (Z.to_pos (total_of ns))).
  { unfold total. rewrite getTotalByCategory_sum. unfold sum_amounts.
    unfold whole_amounts in Hw. rewrite Hw. now apply sum_whole. }
  assert (Hz : Zpos (Z.to_pos (total_of ns)) = total_of ns) by lia.
  split; [exact E|]. rewrite E. split.
  - rewrite units_whole by lia. now rewrite Hz.
  - destruct (renders_whole (toFixed 2 (whole (Z.to_pos (total_of ns))))
                (Npos (Z.to_pos (total_of ns))))
      as (shown & Hs & Hd & Hv); [apply toFixed_2_whole; lia|].
    exists shown. split; [|split; [exact Hd|rewrite Hv; lia]].
    rewrite totalText_eq. fold total. rewrite E, Hs, <- app_assoc. reflexivity.
Qed.

Lemma whole_totals_exact_witness :
  let ledger :=
    spendings
      (final [InputChange (lit "amount") (lit "10.00"); ClickAdd 1 [];
              InputChange (lit "category") (lit "Personal");
              InputChange (lit "amount") (lit "20"); ClickAdd 2 [];
              InputChange (lit "category") (lit "Auto");
              InputChange (lit "amount") (lit "30.0"); ClickAdd 3 []]) in
  whole_amounts (filter (in_category (lit "All")) ledger) [30; 20; 10]%positive
  /\ units (getTotalByCategory ledger (lit "All")) = Some (60 * 2 ^ 1074)%Z
  /\ totalText ledger (lit "All") = lit "$60.00 MXN".
Proof.
  intros ledger.
  assert (Hw : whole_amounts (filter (in_category (lit "All")) ledger)
                 [30; 20; 10]%positive) by (vm_compute; reflexivity).
  split; [exact Hw|].
  destruct (whole_totals_exact ledger (lit "All") [30; 20; 10]%positive Hw
              ltac:(discriminate) eq_refl) as (_ & Hu & _).
  split; [exact Hu|]. vm_compute. reflexivity.
Defined.

Lemma binary_round_aux_sign (m e : Z) (l : location) :
  match binary_round_aux prec emax false m e l with
  | S754_zero s | S754_infinity s | S754_finite s _ _ => s = false
  | S754_nan => True
  end.
Proof.
  unfold binary_round_aux.
  destruct (shr_fexp prec emax m e l) as [mrs' e'].
  destruct (shr_fexp prec emax _ e' loc_Exact) as [mrs'' e''].
  destruct (shr_m mrs''); [reflexivity| |exact I].
  destruct (e'' <=? emax - prec)%Z; reflexivity.
Qed.

Lemma number_of_decimal_sign (n : N) (e : Z) :
  number_of_decimal false n e = S754_zero false
  \/ positive_number (number_of_decimal false n e).
Proof.
  pose proof (number_of_decimal_not_nan false n e) as Hnan.
  assert (Hs : match number_of_decimal false n e with
               | S754_zero s | S754_infinity s | S754_finite s _ _ => s = false
               | S754_nan => True
               end).
  { unfold number_of_decimal. destruct n as [|p]; [reflexivity|].
    destruct (0 <=? e)%Z.
    - unfold binary_round. destruct (shl_align _ _ _). apply binary_round_aux_sign.
    - destruct (SFdiv_core_binary _ _ _ _ _ _) as [[mz ez] lz].
      apply binary_round_aux_sign. }
  destruct (number_of_decimal false n e) as [s|s| |s m' e'];
    try subst s; simpl; auto.
Qed.

(** The amount field holds no sign, so what it holds never parses to a
    negative Number. *)
Lemma clean_amount_parse_cases (a : jsstring) :
  clean_amount a ->
  parseFloat a = NaN \/ parseFloat a = S754_zero false
  \/ positive_number (parseFloat a).
Proof.
  intros Hc. destruct (clean_scan_unsigned a Hc) as [_ Hinf].
  destruct a as [|c r]; [now left|].
  destruct Hc as [Hu _]. inversion Hu as [|? ? Hcu _]; subst.
  apply numeric_unit_plain in Hcu as (Hw & Hm & Hp & _).
  unfold parseFloat. simpl trimStart. rewrite Hw, Hm, Hp.
  destruct (scan_unsigned (c :: r)) as [[|n e]|]; [contradiction| |now left].
  right. apply number_of_decimal_sign.
Qed.

(** X13. In every reachable state a call of [addSpending] raises the alert
    exactly when the amount field is empty or holds a value that parses
    to zero; the [<= 0] test never meets a negative amount. *)
Theorem reachable_alert_iff_empty_or_zero
  (evs : list Event) (now : Z) (today : jsstring) :
  let a := FormData.amount (formData (final evs)) in
  (fst (addSpending now today (final evs)) <> []
   <-> a = [] \/ parseFloat a = S754_zero false)
  /\ (parseFloat a = NaN \/ parseFloat a = S754_zero false
      \/ positive_number (parseFloat a)).
Proof.
  intros a.
  assert (Hc : clean_amount a).
  { apply (final_invariant (fun st => clean_amount (FormData.amount (formData st)))).
    - split; [apply List.Forall_nil|unfold count_dots; simpl; lia].
    - apply step_clean_amount. }
  pose proof (clean_amount_parse_cases a Hc) as Hcases.
  split; [|exact Hcases].
  rewrite addSpending_alert_iff. fold a. split; intros [H|H]; auto; right.
  - destruct Hcases as [E|[E|E]]; [rewrite E in H; discriminate H|exact E|].
    assert (le (parseFloat a) zero = false) by (apply le_zero_false_iff; now left).
    congruence.
  - now rewrite H.
Qed.

End WholeNumbers.

(* ===================================================================== *)
(** * Beyond the specification: trimmed notes and stray fields            *)
(* ===================================================================== *)

Section TrimAndStrayFields.
Import JS Num App Spec.

Lemma trimStart_fixed (s : jsstring) :
  match s with c :: _ => isWhiteSpace c = false | [] => True end ->
  trimStart s = s.
Proof. destruct s as [|c r]; simpl; [reflexivity|]. now intros ->. Qed.

Lemma trimStart_suffix (s : jsstring) : exists p, s = p ++ trimStart s.
Proof.
  induction s as [|c r [p IH]]; simpl; [now exists []|].
  destruct (isWhiteSpace c).
  - exists (c :: p). simpl. now rewrite <- IH.
  - now exists [].
Qed.

(** What [trim] returns starts the string left by [trimStart], and has no
    white space at either end. *)
Lemma trim_ends (s : jsstring) :
  (exists q, trimStart s = trim s ++ q)
  /\ match trim s with c :: _ => isWhiteSpace c = false | [] => True end
  /\ match rev (trim s) with c :: _ => isWhiteSpace c = false | [] => True end.
Proof.
  unfold trim, trimEnd.
  destruct (trimStart_suffix (rev (trimStart s))) as [p Hp].
  assert (Hq : trimStart s = rev (trimStart (rev (trimStart s))) ++ rev p).
  { rewrite <- rev_app_distr, <- Hp. now rewrite rev_involutive. }
  split; [now exists (rev p)|]. split.
  - pose proof (trimStart_head s) as Hh. rewrite Hq in Hh.
    destruct (rev (trimStart (rev (trimStart s)))); [exact I|exact Hh].
  - rewrite rev_involutive. apply trimStart_head.
Qed.

Lemma trim_idempotent (s : jsstring) : trim (trim s) = trim s.
Proof.
  destruct (trim_ends s) as (_ & Hhead & Hlast).
  set (t := trim s) in *. unfold trim at 1, trimEnd.
  rewrite (trimStart_fixed t Hhead), (trimStart_fixed (rev t) Hlast).
  apply rev_involutive.
Qed.

Lemma step_notes_trimmed (ev : Event) (st : State) :
  Forall (fun e => trim (Spending.note e) = Spending.note e) (spendings st) ->
  Forall (fun e => trim (Spending.note e) = Spending.note e)
    (spendings (snd (step ev st))).
Proof.
  intros H. destruct (step_spendings ev st) as [E|(now & today & _ & _ & _ & E)];
    rewrite E; [exact H|].
  constructor; [|exact H]. simpl. apply trim_idempotent.
Qed.

(** X17. Every note in a reachable ledger is trimmed: trimming it again
    changes nothing, and neither its first nor its last code unit is
    white space. *)
Theorem committed_notes_trimmed (evs : list Event) :
  Forall
    (fun e =>
       trim (Spending.note e) = Spending.note e
       /\ match Spending.note e with
          | c :: _ => isWhiteSpace c = false
          | [] => True
          end
       /\ match rev (Spending.note e) with
          | c :: _ => isWhiteSpace c = false
          | [] => True
          end)
    (spendings (final evs)).
Proof.
  apply (List.Forall_impl
           (P := fun e => trim (Spending.note e) = Spending.note e)).
  - intros e He. split; [exact He|].
    destruct (trim_ends (Spending.note e)) as (_ & Hh & Hl).
    rewrite He in Hh, Hl. now split.
  - apply (final_invariant
             (fun st => Forall (fun e => trim (Spending.note e) = Spending.note e)
                          (spendings st))).
    + constructor.
    + apply step_notes_trimmed.
Qed.

(** X18. A field name other than the four of the draft is stored as a stray
    property and is inert: the four fields, the validity gate and the
    entry a commit would build are all unchanged. *)
Theorem stray_field_is_inert
  (field value : jsstring) (fd : FormData.t) (now : Z) (today : jsstring) :
  ~ In field [lit "category"; lit "amount"; lit "currency"; lit "note"] ->
  let fd' := handleInputChange field value fd in
  FormData.extra fd' !! field = Some value
  /\ fd' = FormData.mk (FormData.category fd) (FormData.amount fd)
             (FormData.currency fd) (FormData.note fd)
             (<[field := value]> (FormData.extra fd))
  /\ isFormValid fd' = isFormValid fd
  /\ newSpending now today fd' = newSpending now today fd.
Proof.
  intros Hf fd'.
  assert (E : fd' = FormData.mk (FormData.category fd) (FormData.amount fd)
                      (FormData.currency fd) (FormData.note fd)
                      (<[field := value]> (FormData.extra fd))).
  { unfold fd', handleInputChange, spread_with. destruct fd as [c a u n x].
    simpl in Hf |- *.
    assert (H1 : strict_eq field (lit "category") = false)
      by (apply strict_eq_false; intros ->; apply Hf; auto).
    assert (H2 : strict_eq field (lit "amount") = false)
      by (apply strict_eq_false; intros ->; apply Hf; auto).
    assert (H3 : strict_eq field (lit "currency") = false)
      by (apply strict_eq_false; intros ->; apply Hf; auto).
    assert (H4 : strict_eq field (lit "note") = false)
      by (apply strict_eq_false; intros ->; apply Hf; auto 6).
    now rewrite H2, H4, H1, H3. }
  rewrite E. split; [simpl; apply lookup_insert_eq|].
  split; [reflexivity|]. split; reflexivity.
Qed.

Lemma stray_field_is_inert_witness :
  let fd := FormData.mk (lit "Auto") (lit "7") (lit "USD") [] ∅ in
  ~ In (lit "colour") [lit "category"; lit "amount"; lit "currency"; lit "note"]
  /\ FormData.extra (handleInputChange (lit "colour") (lit "red") fd)
       !! lit "colour" = Some (lit "red")
  /\ newSpending 1 [] (handleInputChange (lit "colour") (lit "red") fd)
     = newSpending 1 [] fd.
Proof.
  intros fd.
  assert (H : ~ In (lit "colour")
                [lit "category"; lit "amount"; lit "currency"; lit "note"]).
  { simpl. intros [E|[E|[E|[E|[]]]]]; discriminate E. }
  split; [exact H|].
  destruct (stray_field_is_inert (lit "colour") (lit "red") fd 1 [] H)
    as (Hl & _ & _ & Hn).
  split; [exact Hl|exact Hn].
Defined.

(** X14. In every reachable state a call of [addSpending] commits exactly when
    the submit button is enabled or the amount field holds the lone
    point: the point is the one draft the commit guard lets through
    although the validity gate refuses it. *)
Theorem commit_iff_valid_or_lone_dot
  (evs : list Event) (now : Z) (today : jsstring) :
  fst (addSpending now today (final evs)) = []
  <-> isFormValid (formData (final evs)) = true
      \/ FormData.amount (formData (final evs)) = [DOT].
Proof.
  split.
  - intros H. destruct (isFormValid (formData (final evs))) eqn:E; [now left|].
    right. now apply (reachable_guard_gate_gap evs now today).
  - intros [H|H].
    + now rewrite isFormValid_commits.
    + now apply (reachable_guard_gate_gap evs now today).
Qed.

End TrimAndStrayFields.
